(** * GitHubTools: a shallow embedding of the two bulk-operation scripts

    - [ReposFromTe]    embeds [GetAllTEReposAndCommit/repos_from_te.py]
      (clone, add a workflow file on a branch, push, open a pull request,
      request reviewers, record the pull-request URLs);
    - [CreateBranches] embeds [GitHubCreateBranches/create_branches_in_projects.py]
      (pick an environment, confirm, create one branch in each repository).

    Both scripts are sequences of calls into the outside world (the hosting
    REST API, git, the file system, the console).  What the outside world
    answers is a parameter of each script: a function from the request (or
    the local call) to its result, one per script run.  The scripts
    themselves are state-passing functions over a [world] that records what
    they did: the HTTP requests issued, the local calls made, the lines
    printed, the console input left to read and the content of the output
    file.  A Python exception is an [exn] carried by the [Raise] outcome,
    [sys.exit(n)] is [Exit n].

    Within one run every request a script issues differs from the others
    (another page, another repository) as long as no repository is listed
    twice, so that a function of the request describes any run of the API. *)

From Stdlib Require Import String Ascii List ZArith Bool Lia.
Import ListNotations.

Set Warnings "-register-all,-notation-for-abbreviation".

Local Open Scope string_scope.
Local Open Scope Z_scope.

(* ===================================================================== *)
(** ** The Python values and exceptions the scripts handle                *)
(* ===================================================================== *)

Module Py.

(** What [response.json()] can produce, and [None]. *)
Inductive value : Type :=
| VNone
| VBool (b : bool)
| VInt (n : Z)
| VStr (s : string)
| VList (l : list value)
| VDict (d : list (string * value)).

(** Truth value of an object, as [if x:] and [not x] test it. *)
Definition truthy (v : value) : bool :=
  match v with
  | VNone => false
  | VBool b => b
  | VInt n => negb (n =? 0)
  | VStr s => negb (s =? "")%string
  | VList l => match l with [] => false | _ :: _ => true end
  | VDict d => match d with [] => false | _ :: _ => true end
  end.

(** Exceptions raised by [requests] before any response exists. *)
Inductive transport : Type :=
| ConnectionError
| Timeout
| TooManyRedirects.

Inductive exn : Type :=
| RequestFailed (t : transport)      (* a transport-level RequestException *)
| HTTPError (status : Z)             (* raised by raise_for_status *)
| JSONDecodeError                    (* requests.exceptions.JSONDecodeError *)
| KeyError (key : string)
| TypeError
| IndexError
| UnboundLocalError (variable : string)
| EOFError
| OSError (message : string)
| GitError (message : string).       (* git.exc.GitError and subclasses *)

(** [isinstance(e, requests.exceptions.RequestException)]. *)
Definition is_RequestException (e : exn) : bool :=
  match e with
  | RequestFailed _ | HTTPError _ | JSONDecodeError => true
  | _ => false
  end.

(** A pure computation that may raise. *)
Inductive result (A : Type) : Type :=
| Ok (a : A)
| Err (e : exn).
Arguments Ok {A} a.
Arguments Err {A} e.

Fixpoint lookup (key : string) (d : list (string * value)) : option value :=
  match d with
  | [] => None
  | (k, v) :: rest => if (k =? key)%string then Some v else lookup key rest
  end.

(** [v[key]] for a string key. *)
Definition getitem (v : value) (key : string) : result value :=
  match v with
  | VDict d =>
      match lookup key d with
      | Some x => Ok x
      | None => Err (KeyError key)
      end
  | _ => Err TypeError
  end.

Definition and_then {A B} (r : result A) (k : A -> result B) : result B :=
  match r with
  | Ok a => k a
  | Err e => Err e
  end.

(** How a function call ends: with a value, with an exception, with
    [sys.exit(code)] (SystemExit is not an [Exception], so no
    [except Exception] clause catches it), or, for the one unbounded
    loop of the repository, with the iteration budget of the model used up. *)
Inductive outcome (A : Type) : Type :=
| Return (a : A)
| Raise (e : exn)
| Exit (code : Z)
| OutOfFuel.
Arguments Return {A} a.
Arguments Raise {A} e.
Arguments Exit {A} code.
Arguments OutOfFuel {A}.

(** Exit status of the process whose [main()] ended with [o]: an uncaught
    exception prints a traceback and the interpreter exits with 1. *)
Definition exit_status {A} (o : outcome A) : Z :=
  match o with
  | Return _ => 0
  | Exit code => code
  | Raise _ => 1
  | OutOfFuel => 1
  end.

(** State-passing computations over a world [W]; the world keeps every
    effect made before an exception. *)
Definition M (W A : Type) : Type := W -> outcome A * W.

Definition ret {W A} (a : A) : M W A := fun w => (Return a, w).

Definition bind {W A B} (m : M W A) (k : A -> M W B) : M W B :=
  fun w =>
    match m w with
    | (Return a, w') => k a w'
    | (Raise e, w') => (Raise e, w')
    | (Exit c, w') => (Exit c, w')
    | (OutOfFuel, w') => (OutOfFuel, w')
    end.

Definition raise {W A} (e : exn) : M W A := fun w => (Raise e, w).

Definition exit {W A} (code : Z) : M W A := fun w => (Exit code, w).

Definition lift {W A} (r : result A) : M W A :=
  match r with
  | Ok a => ret a
  | Err e => raise e
  end.

(** [try: m  except <class> as e: handler e], where [catches] decides
    [isinstance(e, <class>)]. *)
Definition try_except {W A} (m : M W A) (catches : exn -> bool)
           (handler : exn -> M W A) : M W A :=
  fun w =>
    match m w with
    | (Raise e, w') => if catches e then handler e w' else (Raise e, w')
    | other => other
    end.

(** [except Exception]: every [exn] is an [Exception]. *)
Definition is_Exception (e : exn) : bool := true.

End Py.

Import Py.

Declare Scope py_scope.
Delimit Scope py_scope with py.
Notation "x <- m ;; k" := (bind m (fun x => k))
  (at level 100, m at next level, right associativity) : py_scope.
Notation "m ;; k" := (bind m (fun _ => k))
  (at level 100, right associativity) : py_scope.
Local Open Scope py_scope.

(* ===================================================================== *)
(** ** HTTP responses as the [requests] library presents them            *)
(* ===================================================================== *)

Module Http.

(** [B] is the type of the decoded body; [json = None] when the body is
    not JSON, so that [response.json()] raises. *)
Record response (B : Type) : Type := mkResponse {
  status_code : Z;
  text : string;
  json : option B
}.
Arguments mkResponse {B} status_code text json.
Arguments status_code {B} r.
Arguments text {B} r.
Arguments json {B} r.

(** What [requests.get] / [requests.post] does: return a response, or
    raise without one. *)
Inductive reply (B : Type) : Type :=
| Answered (r : response B)
| Failed (t : transport).
Arguments Answered {B} r.
Arguments Failed {B} t.

(** [response.raise_for_status()]: HTTPError for 4xx and 5xx only. *)
Definition raise_for_status {B} (r : response B) : result unit :=
  if (400 <=? status_code r) && (status_code r <? 600)
  then Err (HTTPError (status_code r))
  else Ok tt.

(** [response.json()]. *)
Definition json_of {B} (r : response B) : result B :=
  match json r with
  | Some b => Ok b
  | None => Err JSONDecodeError
  end.

End Http.

Import Http.

(* ===================================================================== *)
(** ** Procedure B: create_branches_in_projects.py                        *)
(* ===================================================================== *)

Module CreateBranches.

(** *** Configuration *)

Definition GITHUB_TOKEN : string := "TOKEN".

Definition GITHUB_OWNER : string := "weareplanet".

(** A Python dict keeps insertion order and [list(ENVIRONMENTS.keys())]
    enumerates it: an association list, in source order. *)
Definition ENVIRONMENTS : list (string * list string) :=
  [ ("TaxFree",
      [ "te-taxfree-android-native"; "te-common-android"; "te-common-pax";
        "te-common-utils" ]);
    ("Launcher",
      [ "te-launcher-android-pax"; "te-common-android"; "te-common-utils" ]);
    ("TE_PAX",
      [ "te-payment-controller-pax"; "te-payment-core";
        "te-payment-screens-resources"; "te-payment-screens-unsigned";
        "te-common-android"; "te-common-pax"; "te-common-ssl";
        "te-common-utils" ]);
    ("TE_3CPOS",
      [ "te-payment-3cpos-ui"; "te-payment-controller-7816"; "te-payment-core";
        "te-payment-screens-resources"; "te-payment-screens-unsigned";
        "te-common-ssl"; "te-common-utils" ]);
    ("TE_Worldline_Samoa",
      [ "te-payment-controller-wl-samoa";
        "te-payment-controller-wl-samoa-applevas";
        "te-payment-controller-wl-samoa-jni-logger";
        "te-payment-controller-wl-samoa-jni-utils";
        "te-payment-controller-wl-samoa-jtlsserver";
        "te-payment-controller-wl-samoa-logger";
        "te-payment-controller-wl-samoa-maps";
        "te-payment-controller-wl-samoa-printer";
        "te-payment-core"; "te-common-bouncycastle";
        "te-payment-screens-resources"; "te-payment-screens-unsigned";
        "te-payment-screens-signed" ]);
    ("TE_Worldline_Spica",
      [ "te-payment-controller-wl-spica"; "te-payment-controller-wl-samoa";
        "te-payment-core"; "te-common-android"; "te-common-ssl";
        "te-common-utils"; "te-common-bouncycastle";
        "te-payment-screens-resources"; "te-payment-screens-unsigned";
        "te-payment-screens-signed" ]);
    ("TE_Ingenico",
      [ "te-payment-core"; "te-payment-core-cpp"; "te-payment-controller-tetra";
        "te-common-cppdk"; "te-payment-screens-resources";
        "te-payment-screens-unsigned" ]);
    ("TE_VOS",
      [ "te-payment-controller-vos"; "te-common-cppdk"; "te-payment-core-cpp";
        "te-payment-screens-resources"; "te-payment-screens-unsigned" ]);
    ("ESCPOS",
      [ "te-escpos-pax"; "te-common-utils"; "te-common-pax";
        "te-common-android" ]) ].

Definition DEFAULT_BASE_BRANCH : string := "main".

(** *** The outside world *)

(** The two API calls.  Every request carries the headers built from
    [token]; [API_URL] is the constant prefix of both URLs.
    - [GetRef]:    GET  {API_URL}/repos/{owner}/{repo_name}/git/ref/heads/{base_branch}
    - [CreateRef]: POST {API_URL}/repos/{owner}/{repo_name}/git/refs
                   with payload {"ref": ref, "sha": sha}. *)
Inductive request : Type :=
| GetRef (owner repo_name base_branch token : string)
| CreateRef (owner repo_name ref : string) (sha : value) (token : string).

(** One constructor per [print] statement, with the interpolated values. *)
Inductive line : Type :=
| Rule
| ProcessingRepository (owner repo_name : string)
| FetchingSha (base_branch : string)
| FoundSha (sha : value)
| ErrorFetchingSha (base_branch repo_name : string) (e : exn)
| BranchNotFound (base_branch : string)
| ResponseBody (body : string)
| CheckPermissions
| CreatingBranch (new_branch : string)
| BranchCreated (new_branch base_branch owner repo_name : string)
| Blank
| BranchExists (new_branch owner repo_name : string)
| ErrorCreatingBranch (repo_name : string) (e : exn)
| SelectEnvironment
| MenuItem (number : nat) (name : string)
| InvalidNumber
| InvalidInput
| EmptyBranchName
| DoubleRule
| PleaseConfirm
| PlanEnvironment (name : string)
| PlanNewBranch (name : string)
| PlanBaseBranch (name : string)
| PlanRepositories
| PlanRepository (owner repo_name : string)
| Cancelled
| ConfirmationReceived
| AllDone
| SomeFailed.

Record world : Type := mkWorld {
  requests : list request;   (* HTTP requests issued so far, oldest first *)
  stdout : list line;        (* lines printed so far, oldest first *)
  stdin : list string        (* lines the operator has yet to type *)
}.

Definition print (l : line) : M world unit :=
  fun w => (Return tt, mkWorld (requests w) (stdout w ++ [l]) (stdin w)).

(** [input(prompt)]: the next line of the console, EOFError at its end. *)
Definition input : M world string :=
  fun w =>
    match stdin w with
    | [] => (Raise EOFError, w)
    | typed :: rest => (Return typed, mkWorld (requests w) (stdout w) rest)
    end.

Section Script.

(** The hosting API: what each request is answered with. *)
Variable api : request -> reply value.

(** The builtins [int(s)] ([None] when it raises ValueError) and
    [s.lower()]. *)
Variable int : string -> option Z.
Variable lower : string -> string.

(** [requests.get] / [requests.post]: the request is on the wire whether
    or not an answer comes back. *)
Definition send (q : request) : M world (reply value) :=
  fun w => (Return (api q), mkWorld (requests w ++ [q]) (stdout w) (stdin w)).

(** *** create_github_branch *)

(** Handler of step 1 (lines 132-140).  [response] is the local variable
    of that name: unbound when [requests.get] itself raised.  [None] as
    result stands for [return False]. *)
Definition fetch_failed (repo_name base_branch : string)
           (response : option (response value)) (e : exn)
  : M world (option value) :=
  print (ErrorFetchingSha base_branch repo_name e) ;;
  match response with
  | None => raise (UnboundLocalError "response")
  | Some r =>
      (if status_code r =? 404
       then print (BranchNotFound base_branch)
       else (print (ResponseBody (text r)) ;; print CheckPermissions)) ;;
      ret None
  end.

(** Lines 127-129, after [requests.get] has returned:
    [response.raise_for_status()] and [response.json()["object"]["sha"]]. *)
Definition head_sha (response : response value) : result value :=
  and_then (raise_for_status response) (fun _ =>
  and_then (json_of response) (fun body =>
  and_then (getitem body "object") (fun object =>
  getitem object "sha"))).

(** Step 1 (lines 121-140): the SHA of the head of [base_branch], the
    response it came from, or [None] for [return False]. *)
Definition fetch_sha (repo_name base_branch owner token : string)
  : M world (option (value * response value)) :=
  print (FetchingSha base_branch) ;;
  got <- send (GetRef owner repo_name base_branch token) ;;
  match got with
  | Failed t =>
      sha <- fetch_failed repo_name base_branch None (RequestFailed t) ;;
      ret None
  | Answered response =>
      sha <- try_except
               (sha <- lift (head_sha response) ;;
                print (FoundSha sha) ;;
                ret (Some sha))
               is_RequestException
               (fetch_failed repo_name base_branch (Some response)) ;;
      match sha with
      | Some sha => ret (Some (sha, response))
      | None => ret None
      end
  end.

(** Handler of step 2 (lines 164-167); [response] is bound here, to the
    answer of step 1 if [requests.post] raised. *)
Definition create_failed (repo_name : string) (response : response value)
           (e : exn) : M world bool :=
  print (ErrorCreatingBranch repo_name e) ;;
  print (ResponseBody (text response)) ;;
  ret false.

Definition create_github_branch
           (repo_name new_branch base_branch owner token : string)
  : M world bool :=
  print Rule ;;
  print (ProcessingRepository owner repo_name) ;;
  step1 <- fetch_sha repo_name base_branch owner token ;;
  match step1 with
  | None => ret false
  | Some (sha, response) =>
      print (CreatingBranch new_branch) ;;
      posted <- send (CreateRef owner repo_name ("refs/heads/" ++ new_branch)
                                sha token) ;;
      match posted with
      | Failed t => create_failed repo_name response (RequestFailed t)
      | Answered response =>
          if status_code response =? 201 then
            print (BranchCreated new_branch base_branch owner repo_name) ;;
            print Blank ;;
            ret true
          else if status_code response =? 422 then
            print (BranchExists new_branch owner repo_name) ;;
            print Blank ;;
            ret true
          else
            try_except
              (lift (raise_for_status response) ;;
               ret false)                       (* falls to line 169 *)
              is_RequestException
              (create_failed repo_name response)
      end
  end.

(** How [main] counts a repository: what the call made for it returns or
    raises.  The call reads nothing of the world but the API's answers, so
    that it may be run from the empty world. *)
Definition branch_outcome (repo new_branch_name selected_base_branch : string)
  : outcome bool :=
  fst (create_github_branch repo new_branch_name selected_base_branch
         GITHUB_OWNER GITHUB_TOKEN (mkWorld [] [] [])).

(** *** main *)

(** [for i, name in enumerate(env_names): print(f"  {i + 1}. {name}")]. *)
Fixpoint print_menu (i : nat) (env_names : list string) : M world unit :=
  match env_names with
  | [] => ret tt
  | name :: rest => print (MenuItem (i + 1) name) ;; print_menu (S i) rest
  end.

(** The selection loop (lines 181-191), by recursion on the lines still to
    be read: every iteration reads one.  Returns the environment name, the
    console input left and the lines printed meanwhile. *)
Fixpoint select_loop (env_names : list string) (lines : list string)
  : outcome string * list string * list line :=
  match lines with
  | [] => (Raise EOFError, [], [])            (* input() at end of file *)
  | choice :: rest =>
      let again (said : list line) :=
        let '(o, rest', out) := select_loop env_names rest in
        (o, rest', (said ++ out)%list) in
      match int choice with
      | None => again [InvalidInput]          (* except ValueError *)
      | Some n =>
          let choice_index := n - 1 in
          if (0 <=? choice_index)
             && (choice_index <? Z.of_nat (length env_names))
          then
            match nth_error env_names (Z.to_nat choice_index) with
            | Some selected_env_name =>
                if (selected_env_name =? "")%string
                then again []                 (* while not selected_env_name *)
                else (Return selected_env_name, rest, [])
            | None => (Raise IndexError, rest, [])
            end
          else again [InvalidNumber]
      end
  end.

Definition select_environment (env_names : list string) : M world string :=
  fun w =>
    let '(o, rest, out) := select_loop env_names (stdin w) in
    (o, mkWorld (requests w) (stdout w ++ out) rest).

(** [ENVIRONMENTS[selected_env_name]]. *)
Fixpoint environment_repos (envs : list (string * list string))
         (selected_env_name : string) : result (list string) :=
  match envs with
  | [] => Err (KeyError selected_env_name)
  | (name, repos) :: rest =>
      if (name =? selected_env_name)%string then Ok repos
      else environment_repos rest selected_env_name
  end.

Fixpoint print_plan (selected_repos : list string) : M world unit :=
  match selected_repos with
  | [] => ret tt
  | repo :: rest => print (PlanRepository GITHUB_OWNER repo) ;; print_plan rest
  end.

(** [confirm.lower() not in ['y', 'yes']]. *)
Definition declined (confirm : string) : bool :=
  negb (existsb (String.eqb (lower confirm)) ["y"; "yes"]).

(** The loop of step 5 (lines 227-237), [all_successful] being its
    variable of that name. *)
Fixpoint create_branches (selected_repos : list string)
         (new_branch_name selected_base_branch : string)
         (all_successful : bool) : M world bool :=
  match selected_repos with
  | [] => ret all_successful
  | repo :: rest =>
      success <- create_github_branch repo new_branch_name
                   selected_base_branch GITHUB_OWNER GITHUB_TOKEN ;;
      create_branches rest new_branch_name selected_base_branch
                      (if negb success then false else all_successful)
  end.

Definition main : M world unit :=
  let env_names := map fst ENVIRONMENTS in
  print SelectEnvironment ;;
  print_menu 0 env_names ;;
  selected_env_name <- select_environment env_names ;;
  selected_repos <- lift (environment_repos ENVIRONMENTS selected_env_name) ;;
  new_branch_name <- input ;;
  if (new_branch_name =? "")%string then
    print EmptyBranchName ;;
    exit 1
  else
    typed <- input ;;
    let selected_base_branch :=
      if (typed =? "")%string then DEFAULT_BASE_BRANCH else typed in
    print DoubleRule ;;
    print PleaseConfirm ;;
    print DoubleRule ;;
    print (PlanEnvironment selected_env_name) ;;
    print (PlanNewBranch new_branch_name) ;;
    print (PlanBaseBranch selected_base_branch) ;;
    print PlanRepositories ;;
    print_plan selected_repos ;;
    print DoubleRule ;;
    confirm <- input ;;
    if declined confirm then
      print Cancelled ;;
      exit 0
    else
      print ConfirmationReceived ;;
      all_successful <- create_branches selected_repos new_branch_name
                          selected_base_branch true ;;
      if all_successful then print AllDone
      else (print SomeFailed ;; exit 1).

(** *** What the operator typed and what the API was asked *)

(** What the selection loop answers to a choice it does not take: the line
    of the [except ValueError] clause or that of the range test; [None] for
    a choice within the menu. *)
Definition complaint (env_names : list string) (choice : string) : option line :=
  match int choice with
  | None => Some InvalidInput
  | Some n =>
      if (0 <=? n - 1) && (n - 1 <? Z.of_nat (length env_names))
      then None
      else Some InvalidNumber
  end.

(** The repository and the base branch a request looks up, if it is a
    lookup. *)
Definition looked_up (q : request) : list (string * string) :=
  match q with
  | GetRef _ repo_name base_branch _ => [(repo_name, base_branch)]
  | CreateRef _ _ _ _ _ => []
  end.

End Script.

End CreateBranches.

(* ===================================================================== *)
(** ** Procedure A: repos_from_te.py                                      *)
(* ===================================================================== *)

Module ReposFromTe.

(** *** Configuration *)

Definition org_name : string := "weareplanet".
Definition folder_path : string := ".github/workflows".
Definition file_name : string := "cherrypick_workflow.yml".
Definition branch_name : string := "add-cherrypick-workflow".
Definition commit_message : string := "Add cherrypick workflow".
Definition reviewers : list string := ["bgigante-planet"; "varaujo-planet"].
Definition output_file : string := "created_prs.txt".

Definition newline : string := String (ascii_of_nat 10) EmptyString.

(** *** The outside world *)

(** An entry of the organization's repository listing; the script reads
    [repo["name"]] and [repo["clone_url"]]. *)
Record repo : Type := mkRepo {
  name : string;
  clone_url : string
}.

(** The three API calls, each with the module's fixed [headers].
    - [ListRepos]:        GET  {base_url}/orgs/{org_name}/repos?per_page=100&page={page}
    - [CreatePull]:       POST {base_url}/repos/{org_name}/{repo_name}/pulls
                          with {"title": pr_title, "head": head, "base": "main", "body": pr_body}
    - [RequestReviewers]: POST {base_url}/repos/{org_name}/{repo_name}/pulls/{pr_number}/requested_reviewers
                          with {"reviewers": reviewers}. *)
Inductive request : Type :=
| ListRepos (page : nat)
| CreatePull (repo_name head : string)
| RequestReviewers (repo_name : string) (pr_number : value).

(** The calls into GitPython and the file system that may raise. *)
Inductive command : Type :=
| CloneFrom (repo_url local_path : string)       (* Repo.clone_from(repo_url, local_path) *)
| OpenRepo (local_path : string)                 (* Repo(local_path) *)
| CheckoutNew (local_path branch : string)       (* repo.git.checkout("-b", branch) *)
| Makedirs (path : string)                       (* os.makedirs(path, exist_ok=True) *)
| WriteText (path content : string)              (* open(path, "w") and file.write(content) *)
| GitAdd (local_path path : string)              (* repo.git.add(path) *)
| GitCommit (local_path message : string)        (* repo.git.commit("-m", message) *)
| Remote (local_path remote : string)            (* repo.remote(name=remote) *)
| Push (local_path branch : string)              (* origin.push(branch) *)
| OpenForWriting (path : string).                (* open(path, "w") *)

(** One constructor per [print] statement, with the interpolated values. *)
Inductive line : Type :=
| MissingWorkflowFile (file : string)
| SkippingClone (local_path : string)
| Cloning (repo_name : string)
| CreatingBranch (branch repo_name : string)
| ErrorProcessing (repo_name : string) (e : exn)
| PullRequestCreated (repo_name : string) (pr_link : value)
| PullRequestFailed (repo_name : string) (status : Z) (body : string)
| PullRequestError (repo_name : string) (e : exn)
| ReviewersAdded (pr_number : value) (repo_name : string)
| ReviewersFailed (pr_number : value) (repo_name : string) (status : Z) (body : string)
| ReviewersError (pr_number : value) (repo_name : string) (e : exn)
| FetchingPage (page : nat)
| FetchError (status : Z) (body : string)
| Processing (repo_name : string)
| Skipping (repo_name : string) (e : exn)
| UrlsWritten (file : string).

Record world : Type := mkWorld {
  requests : list request;   (* HTTP requests issued so far, oldest first *)
  commands : list command;   (* git and file-system calls made so far *)
  stdout : list line;        (* lines printed so far *)
  output : option string     (* content of [output_file], None when absent *)
}.

Definition print (l : line) : M world unit :=
  fun w => (Return tt, mkWorld (requests w) (commands w) (stdout w ++ [l]) (output w)).

Section Script.

(** The hosting API: the listing endpoint, page by page, and the others. *)
Variable list_repos : nat -> reply (list repo).
Variable api : request -> reply value.

(** The local machine: [os.path.exists], the calls that may raise
    ([None]: the call went through) and the content [open(p).read()] gives. *)
Variable path_exists : string -> bool.
Variable run : command -> option exn.
Variable read_text : string -> result string.

Definition get_page (page : nat) : M world (reply (list repo)) :=
  fun w => (Return (list_repos page),
            mkWorld (requests w ++ [ListRepos page]) (commands w) (stdout w) (output w)).

Definition post (q : request) : M world (reply value) :=
  fun w => (Return (api q),
            mkWorld (requests w ++ [q]) (commands w) (stdout w) (output w)).

(** A response, or the exception [requests] raised instead. *)
Definition answer {B} (got : reply B) : M world (response B) :=
  match got with
  | Answered r => ret r
  | Failed t => raise (RequestFailed t)
  end.

Definition call (c : command) : M world unit :=
  fun w =>
    let w' := mkWorld (requests w) (commands w ++ [c]) (stdout w) (output w) in
    match run c with
    | None => (Return tt, w')
    | Some e => (Raise e, w')
    end.

(** [os.path.join(a, b)] of posixpath. *)
Definition path_join (a b : string) : string :=
  if prefix "/" b then b
  else if (a =? "")%string || (substring (String.length a - 1) 1 a =? "/")%string
       then a ++ b
       else a ++ "/" ++ b.

(** *** read_workflow_file *)

Definition read_workflow_file : M world string :=
  if negb (path_exists file_name) then
    print (MissingWorkflowFile file_name) ;;
    exit 1
  else lift (read_text file_name).

(** *** create_branch_and_push: the branch name, or [None] *)

Definition create_branch_and_push (repo_url repo_name workflow_content : string)
  : M world (option string) :=
  try_except
    (let local_path := "./" ++ repo_name in
     (if path_exists local_path
      then print (SkippingClone local_path)
      else (print (Cloning repo_name) ;; call (CloneFrom repo_url local_path))) ;;
     call (OpenRepo local_path) ;;
     print (CreatingBranch branch_name repo_name) ;;
     call (CheckoutNew local_path branch_name) ;;
     let workflows_path := path_join local_path folder_path in
     call (Makedirs workflows_path) ;;
     let file_path := path_join workflows_path file_name in
     call (WriteText file_path workflow_content) ;;
     call (GitAdd local_path folder_path) ;;
     call (GitCommit local_path commit_message) ;;
     call (Remote local_path "origin") ;;
     call (Push local_path branch_name) ;;
     ret (Some branch_name))
    is_Exception
    (fun e => print (ErrorProcessing repo_name e) ;; ret None).

(** *** add_reviewers *)

Definition add_reviewers (repo_name : string) (pr_number : value) : M world unit :=
  try_except
    (got <- post (RequestReviewers repo_name pr_number) ;;
     response <- answer got ;;
     if status_code response =? 201
     then print (ReviewersAdded pr_number repo_name)
     else print (ReviewersFailed pr_number repo_name
                                 (status_code response) (text response)))
    is_Exception
    (fun e => print (ReviewersError pr_number repo_name e)).

(** *** create_pull_request: the [html_url] of the new pull request, or [None] *)

Definition create_pull_request (repo_name : string) (branch : option string)
  : M world value :=
  match branch with
  | None => ret VNone                                   (* not branch_name *)
  | Some head =>
      if (head =? "")%string then ret VNone             (* not branch_name *)
      else
        try_except
          (got <- post (CreatePull repo_name head) ;;
           response <- answer got ;;
           if status_code response =? 201 then
             pr_data <- lift (json_of response) ;;
             pr_number <- lift (getitem pr_data "number") ;;
             pr_link <- lift (getitem pr_data "html_url") ;;
             print (PullRequestCreated repo_name pr_link) ;;
             add_reviewers repo_name pr_number ;;
             ret pr_link
           else
             print (PullRequestFailed repo_name (status_code response)
                                      (text response)) ;;
             ret VNone)
          is_Exception
          (fun e => print (PullRequestError repo_name e) ;; ret VNone)
  end.

(** *** main *)

(** Step 2 (lines 129-145), the [while True] loop; [fuel] bounds the
    number of pages requested. *)
Fixpoint fetch_repos (fuel : nat) (page : nat) (repos : list repo)
  : M world (list repo) :=
  match fuel with
  | O => fun w => (OutOfFuel, w)
  | S fuel' =>
      print (FetchingPage page) ;;
      got <- get_page page ;;
      response <- answer got ;;
      if negb (status_code response =? 200) then
        print (FetchError (status_code response) (text response)) ;;
        ret repos                                         (* break *)
      else
        data <- lift (json_of response) ;;
        match data with
        | [] => ret repos                                 (* break *)
        | _ :: _ => fetch_repos fuel' (page + 1)%nat (repos ++ data)%list
        end
  end.

(** Step 3 (line 148): the condition of the list comprehension. *)
Definition selected (r : repo) : bool :=
  prefix "te-" (name r) && negb (name r =? "te-payment-test")%string.

Definition filter_repos (repos : list repo) : list repo :=
  filter selected repos.

(** Step 4 (lines 152-165), [pr_urls] being the list of that name. *)
Fixpoint process (filtered_repos : list repo) (workflow_content : string)
         (pr_urls : list value) : M world (list value) :=
  match filtered_repos with
  | [] => ret pr_urls
  | r :: rest =>
      let repo_name := name r in
      let repo_url := clone_url r in
      print (Processing repo_name) ;;
      pr_urls <- try_except
                   (branch <- create_branch_and_push repo_url repo_name
                                                     workflow_content ;;
                    pr_url <- create_pull_request repo_name branch ;;
                    if truthy pr_url then ret (pr_urls ++ [pr_url])%list
                    else ret pr_urls)
                   is_Exception
                   (fun e => print (Skipping repo_name e) ;; ret pr_urls) ;;
      process rest workflow_content pr_urls
  end.

(** [file.write(url + "\n")]: the addition raises unless [url] is a string. *)
Definition write_line (url : value) : M world unit :=
  match url with
  | VStr u =>
      fun w =>
        let content := match output w with Some c => c | None => "" end in
        (Return tt, mkWorld (requests w) (commands w) (stdout w)
                            (Some (content ++ u ++ newline)))
  | _ => raise TypeError
  end.

Fixpoint write_lines (pr_urls : list value) : M world unit :=
  match pr_urls with
  | [] => ret tt
  | url :: rest => write_line url ;; write_lines rest
  end.

(** Step 5 (lines 168-170): mode "w" empties the file when it opens. *)
Definition write_output (pr_urls : list value) : M world unit :=
  call (OpenForWriting output_file) ;;
  (fun w => (Return tt, mkWorld (requests w) (commands w) (stdout w) (Some ""))) ;;
  write_lines pr_urls.

Definition main (fuel : nat) : M world unit :=
  workflow_content <- read_workflow_file ;;
  repos <- fetch_repos fuel 1 [] ;;
  let filtered_repos := filter_repos repos in
  pr_urls <- process filtered_repos workflow_content [] ;;
  write_output pr_urls ;;
  print (UrlsWritten output_file).

(** *** What the API did, read off the requests *)

(** The pull request a request created: the [html_url] of the answer to a
    creation request that the API answered with 201. *)
Definition created_url (q : request) : list string :=
  match q with
  | CreatePull _ _ =>
      match api q with
      | Answered r =>
          if status_code r =? 201 then
            match and_then (json_of r) (fun pr_data => getitem pr_data "html_url") with
            | Ok (VStr url) => [url]
            | _ => []
            end
          else []
      | Failed _ => []
      end
  | _ => []
  end.

(** The URLs of the pull requests created by a sequence of requests, in
    the order of their creation. *)
Definition created_urls (issued : list request) : list string :=
  flat_map created_url issued.

(** The pages [first], [first + 1], ... hold [pages], in this order, and
    the page after them ends the listing: it is refused, or it is empty. *)
Definition listed (first : nat) (pages : list (list repo)) : Prop :=
  (forall i data,
      nth_error pages i = Some data ->
      data <> []
      /\ exists r, list_repos (first + i) = Answered r
                   /\ status_code r = 200 /\ json r = Some data)
  /\ exists r, list_repos (first + length pages) = Answered r
               /\ (status_code r <> 200 \/ json r = Some []).

(** The text of a file holding one URL per line. *)
Fixpoint url_lines (urls : list string) : string :=
  match urls with
  | [] => ""
  | url :: rest => url ++ newline ++ url_lines rest
  end.

(** What the API documents for a pull request it created: the body of a
    201 answer carries the number of the pull request and its URL, a
    string that is not empty. *)
Definition pulls_carry_urls : Prop :=
  forall repo_name head r,
    api (CreatePull repo_name head) = Answered r ->
    status_code r = 201 ->
    exists pr_data pr_number url,
      json r = Some pr_data
      /\ getitem pr_data "number" = Ok pr_number
      /\ getitem pr_data "html_url" = Ok (VStr url)
      /\ url <> "".

(** The pages [first], [first + 1], ... are answered with 200 and hold
    [pages], none of them empty. *)
Definition pages_answered (first : nat) (pages : list (list repo)) : Prop :=
  forall i data,
    nth_error pages i = Some data ->
    data <> []
    /\ exists r, list_repos (first + i) = Answered r
                 /\ status_code r = 200 /\ json r = Some data.

(** The exception the request for a page ends with, if any: that of
    [requests.get], or that of [response.json()] on a 200 answer whose body
    is not JSON. *)
Definition page_exception (page : nat) : option exn :=
  match list_repos page with
  | Failed t => Some (RequestFailed t)
  | Answered r =>
      if status_code r =? 200 then
        match json r with
        | None => Some JSONDecodeError
        | Some _ => None
        end
      else None
  end.

(** A request is within the selection of step 3 when it lists a page, or
    concerns a repository whose name passes the filter, the head of a pull
    request being the branch of the script. *)
Definition in_scope (q : request) : Prop :=
  match q with
  | ListRepos _ => True
  | CreatePull repo_name head =>
      head = branch_name
      /\ prefix "te-" repo_name = true /\ repo_name <> "te-payment-test"
  | RequestReviewers repo_name _ =>
      prefix "te-" repo_name = true /\ repo_name <> "te-payment-test"
  end.

End Script.

End ReposFromTe.

(* ===================================================================== *)
(** ** Order                                                              *)
(* ===================================================================== *)

(** [Subseq l1 l2]: [l1] is [l2] with some elements dropped, the others
    in their original order. *)
Inductive Subseq {A : Type} : list A -> list A -> Prop :=
| subseq_nil : Subseq [] []
| subseq_drop (x : A) (l1 l2 : list A) : Subseq l1 l2 -> Subseq l1 (x :: l2)
| subseq_keep (x : A) (l1 l2 : list A) : Subseq l1 l2 -> Subseq (x :: l1) (x :: l2).

(* ===================================================================== *)
(** ** Concrete runs                                                      *)
(* ===================================================================== *)

Module Scenario.

(** Decimal numerals: the part of [int()] the runs below type in. *)
Definition digit (c : ascii) : option Z :=
  let n := Z.of_nat (nat_of_ascii c) in
  if (48 <=? n) && (n <=? 57) then Some (n - 48) else None.

Fixpoint digits (s : string) (acc : Z) : option Z :=
  match s with
  | EmptyString => Some acc
  | String c rest =>
      match digit c with
      | Some d => digits rest (10 * acc + d)
      | None => None
      end
  end.

Definition int (s : string) : option Z :=
  match s with
  | EmptyString => None
  | _ => digits s 0
  end.

(** [str.lower] on ASCII letters. *)
Definition lower_char (c : ascii) : ascii :=
  let n := nat_of_ascii c in
  if (65 <=? n)%nat && (n <=? 90)%nat then ascii_of_nat (n + 32) else c.

Fixpoint lower (s : string) : string :=
  match s with
  | EmptyString => EmptyString
  | String c rest => String (lower_char c) (lower rest)
  end.

(** The body of a successful ref lookup. *)
Definition ref_body (sha : string) : value :=
  VDict [("ref", VStr "refs/heads/main");
         ("object", VDict [("sha", VStr sha); ("type", VStr "commit")])].

(** An API that answers every ref lookup with [get_status] and every ref
    creation with [post_status]. *)
Definition branch_api (get_status post_status : Z)
           (q : CreateBranches.request) : reply value :=
  match q with
  | CreateBranches.GetRef _ _ _ _ =>
      Answered (mkResponse get_status "lookup body" (Some (ref_body "0a1b2c")))
  | CreateBranches.CreateRef _ _ _ _ _ =>
      Answered (mkResponse post_status "creation body" None)
  end.

(** An API that cannot be reached. *)
Definition unreachable_api (q : CreateBranches.request) : reply value :=
  Failed ConnectionError.

Definition console (lines : list string) : CreateBranches.world :=
  CreateBranches.mkWorld [] [] lines.

(** An API that answers every ref lookup and is cut off for every ref
    creation. *)
Definition cut_off_api (q : CreateBranches.request) : reply value :=
  match q with
  | CreateBranches.GetRef _ _ _ _ =>
      Answered (mkResponse 200 "lookup body" (Some (ref_body "0a1b2c")))
  | CreateBranches.CreateRef _ _ _ _ _ => Failed Timeout
  end.

(** An API whose answer to a ref lookup has no [object]. *)
Definition bare_api (q : CreateBranches.request) : reply value :=
  Answered (mkResponse 200 "{...}" (Some (VDict [("message", VStr "ok")]))).

(** An organization of five repositories, listed on two pages. *)
Definition te_alpha : ReposFromTe.repo :=
  ReposFromTe.mkRepo "te-alpha" "https://github.com/weareplanet/te-alpha.git".
Definition te_beta : ReposFromTe.repo :=
  ReposFromTe.mkRepo "te-beta" "https://github.com/weareplanet/te-beta.git".
Definition te_gamma : ReposFromTe.repo :=
  ReposFromTe.mkRepo "te-gamma" "https://github.com/weareplanet/te-gamma.git".
Definition te_payment_test : ReposFromTe.repo :=
  ReposFromTe.mkRepo "te-payment-test"
                     "https://github.com/weareplanet/te-payment-test.git".
Definition website : ReposFromTe.repo :=
  ReposFromTe.mkRepo "website" "https://github.com/weareplanet/website.git".

Definition first_page : list ReposFromTe.repo := [te_alpha; website; te_beta].
Definition second_page : list ReposFromTe.repo := [te_payment_test; te_gamma].

Definition listing (page : nat) : reply (list ReposFromTe.repo) :=
  match page with
  | 1%nat => Answered (mkResponse 200 "[...]" (Some first_page))
  | 2%nat => Answered (mkResponse 200 "[...]" (Some second_page))
  | 3%nat => Answered (mkResponse 200 "[]" (Some []))
  | _ => Answered (mkResponse 404 "Not Found" None)
  end.

(** The same organization when the second page is refused. *)
Definition limited_listing (page : nat) : reply (list ReposFromTe.repo) :=
  match page with
  | 1%nat => Answered (mkResponse 200 "[...]" (Some first_page))
  | _ => Answered (mkResponse 403 "rate limit exceeded" None)
  end.

Definition pull_body (number : Z) (url : string) : value :=
  VDict [("number", VInt number); ("html_url", VStr url); ("state", VStr "open")].

(** Pull requests are created for te-alpha (number 7) and te-gamma
    (number 3) and refused for any other repository; reviewers are accepted. *)
Definition pulls_api (q : ReposFromTe.request) : reply value :=
  match q with
  | ReposFromTe.CreatePull repo_name _ =>
      if (repo_name =? "te-alpha")%string then
        Answered (mkResponse 201 "{...}"
          (Some (pull_body 7 "https://github.com/weareplanet/te-alpha/pull/7")))
      else if (repo_name =? "te-gamma")%string then
        Answered (mkResponse 201 "{...}"
          (Some (pull_body 3 "https://github.com/weareplanet/te-gamma/pull/3")))
      else Answered (mkResponse 422 "Validation Failed" None)
  | _ => Answered (mkResponse 201 "{...}" None)
  end.

(** Only the workflow file exists; every repository is cloned. *)
Definition only_workflow (path : string) : bool :=
  (path =? ReposFromTe.file_name)%string.

(** Every local call goes through. *)
Definition all_goes_well (c : ReposFromTe.command) : option exn := None.

(** The push to te-gamma is the one call that raises. *)
Definition push_rejected (c : ReposFromTe.command) : option exn :=
  match c with
  | ReposFromTe.Push local_path _ =>
      if (local_path =? "./te-gamma")%string
      then Some (GitError "push rejected") else None
  | _ => None
  end.

Definition workflow_text (path : string) : result string :=
  Ok "name: cherrypick".

Definition fresh : ReposFromTe.world :=
  ReposFromTe.mkWorld [] [] [] None.

(** An API whose 201 answer to a creation holds the URL of the pull
    request and not its number. *)
Definition numberless_api (q : ReposFromTe.request) : reply value :=
  Answered (mkResponse 201 "{...}"
    (Some (VDict [("html_url",
                   VStr "https://github.com/weareplanet/te-alpha/pull/7")]))).

(** An API that creates pull requests as [pulls_api] does and refuses the
    reviewers of te-alpha, the request for those of te-gamma being cut off. *)
Definition no_reviewers_api (q : ReposFromTe.request) : reply value :=
  match q with
  | ReposFromTe.RequestReviewers repo_name _ =>
      if (repo_name =? "te-alpha")%string
      then Answered (mkResponse 422 "Reviews may only be requested from collaborators" None)
      else Failed Timeout
  | _ => pulls_api q
  end.

(** A machine without the workflow file. *)
Definition nothing_exists (path : string) : bool := false.

(** A listing cut off after its first page. *)
Definition broken_listing (page : nat) : reply (list ReposFromTe.repo) :=
  match page with
  | 1%nat => Answered (mkResponse 200 "[...]" (Some first_page))
  | _ => Failed ConnectionError
  end.

(** A machine with a list of URLs left over from an earlier run. *)
Definition stale : ReposFromTe.world :=
  ReposFromTe.mkWorld [] [] [] (Some "https://github.com/weareplanet/old/pull/1").

End Scenario.

(* ===================================================================== *)
(** ** Properties                                                         *)
(* ===================================================================== *)

Local Open Scope list_scope.

Ltac tidy := repeat rewrite <- app_assoc; cbn [app].

(** *** Status codes *)

Lemma raise_for_status_rejects {B} (r : response B) :
  400 <= status_code r < 600 ->
  raise_for_status r = Err (HTTPError (status_code r)).
Proof.
  intros [Hlo Hhi]. unfold raise_for_status.
  apply Z.leb_le in Hlo. apply Z.ltb_lt in Hhi. now rewrite Hlo, Hhi.
Qed.

Lemma raise_for_status_accepts {B} (r : response B) :
  ~ (400 <= status_code r < 600) -> raise_for_status r = Ok tt.
Proof.
  intros H. unfold raise_for_status.
  destruct (400 <=? status_code r) eqn:Hlo; [|reflexivity].
  destruct (status_code r <? 600) eqn:Hhi; [|reflexivity].
  apply Z.leb_le in Hlo. apply Z.ltb_lt in Hhi. lia.
Qed.

Lemma head_sha_rejected (r : response value) :
  400 <= status_code r < 600 ->
  CreateBranches.head_sha r = Err (HTTPError (status_code r)).
Proof.
  intros H. unfold CreateBranches.head_sha. now rewrite (raise_for_status_rejects r H).
Qed.

(** *** The branch creator of Procedure B *)

Section BranchCreator.

Import CreateBranches.

Variable api : request -> reply value.
Variables repo_name new_branch base_branch owner token : string.

Local Notation lookup := (GetRef owner repo_name base_branch token).
Local Notation creation sha :=
  (CreateRef owner repo_name ("refs/heads/" ++ new_branch)%string sha token).
Local Notation opening :=
  [Rule; ProcessingRepository owner repo_name; FetchingSha base_branch].
Local Notation branch_creator :=
  (create_github_branch api repo_name new_branch base_branch owner token).

Ltac exec :=
  cbv [create_github_branch fetch_sha fetch_failed create_failed
       bind ret raise lift print send try_except]; cbv beta iota.

(** What the lookup of step 1 leaves behind when it is rejected. *)
Lemma lookup_rejected w r :
  api lookup = Answered r ->
  400 <= status_code r < 600 ->
  branch_creator w =
  (Return false,
   mkWorld (requests w ++ [lookup])
           (stdout w ++ opening
              ++ ErrorFetchingSha base_branch repo_name (HTTPError (status_code r))
              :: (if status_code r =? 404
                  then [BranchNotFound base_branch]
                  else [ResponseBody (text r); CheckPermissions]))
           (stdin w)).
Proof.
  intros Hget Hs. exec. rewrite Hget, (head_sha_rejected r Hs). cbv beta iota.
  cbn [is_RequestException].
  destruct (status_code r =? 404); cbn [requests stdout stdin]; tidy; reflexivity.
Qed.

(** What follows a resolved lookup, by the answer to the creation. *)
Lemma creation_answered w r sha r2 :
  api lookup = Answered r ->
  head_sha r = Ok sha ->
  api (creation sha) = Answered r2 ->
  branch_creator w =
  (Return ((status_code r2 =? 201) || (status_code r2 =? 422)),
   mkWorld (requests w ++ [lookup; creation sha])
           (stdout w ++ opening ++ FoundSha sha :: CreatingBranch new_branch
              :: (if status_code r2 =? 201
                  then [BranchCreated new_branch base_branch owner repo_name; Blank]
                  else if status_code r2 =? 422
                  then [BranchExists new_branch owner repo_name; Blank]
                  else match raise_for_status r2 with
                       | Ok _ => []
                       | Err e => [ErrorCreatingBranch repo_name e;
                                   ResponseBody (text r2)]
                       end))
           (stdin w)).
Proof.
  intros Hget Hsha Hpost. exec. rewrite Hget, Hsha. cbv beta iota. rewrite Hpost.
  destruct (status_code r2 =? 201); [cbn [requests stdout stdin orb]; tidy; reflexivity|].
  destruct (status_code r2 =? 422); [cbn [requests stdout stdin orb]; tidy; reflexivity|].
  unfold raise_for_status.
  destruct ((400 <=? status_code r2) && (status_code r2 <? 600));
    cbn [is_RequestException requests stdout stdin orb]; tidy; reflexivity.
Qed.

(** C1, as amended.  The lookup of the base ref answered with a 4xx or 5xx
    status (404 or any other) ends the call with [False] and only the
    lookup on the wire, the body being printed for every status but 404;
    after a resolved lookup, a creation answered 201 or 422 gives [True],
    and one answered with any other 4xx or 5xx status gives [False] with
    the body of that answer printed. *)
Theorem create_github_branch_by_status w r :
  api lookup = Answered r ->
  (status_code r = 404 ->
     branch_creator w =
     (Return false,
      mkWorld (requests w ++ [lookup])
              (stdout w ++ opening
                 ++ [ErrorFetchingSha base_branch repo_name (HTTPError 404);
                     BranchNotFound base_branch])
              (stdin w)))
  /\ (400 <= status_code r < 600 -> status_code r <> 404 ->
     branch_creator w =
     (Return false,
      mkWorld (requests w ++ [lookup])
              (stdout w ++ opening
                 ++ [ErrorFetchingSha base_branch repo_name
                       (HTTPError (status_code r));
                     ResponseBody (text r); CheckPermissions])
              (stdin w)))
  /\ (forall sha r2,
        head_sha r = Ok sha ->
        api (creation sha) = Answered r2 ->
        (status_code r2 = 201 \/ status_code r2 = 422 ->
           fst (branch_creator w) = Return true
           /\ requests (snd (branch_creator w))
              = requests w ++ [lookup; creation sha])
        /\ (400 <= status_code r2 < 600 -> status_code r2 <> 422 ->
           branch_creator w =
           (Return false,
            mkWorld (requests w ++ [lookup; creation sha])
                    (stdout w ++ opening
                       ++ [FoundSha sha; CreatingBranch new_branch;
                           ErrorCreatingBranch repo_name
                             (HTTPError (status_code r2));
                           ResponseBody (text r2)])
                    (stdin w)))).
Proof.
  intros Hget. split; [|split].
  - intros H404. rewrite (lookup_rejected w r Hget) by lia.
    rewrite H404. reflexivity.
  - intros Hs Hn. rewrite (lookup_rejected w r Hget Hs).
    apply Z.eqb_neq in Hn. rewrite Hn. reflexivity.
  - intros sha r2 Hsha Hpost. rewrite (creation_answered w r sha r2 Hget Hsha Hpost).
    split.
    + intros [H | H]; rewrite H; cbn; split; reflexivity.
    + intros Hs Hn.
      assert (H201 : (status_code r2 =? 201) = false) by (apply Z.eqb_neq; lia).
      apply Z.eqb_neq in Hn. rewrite H201, Hn, (raise_for_status_rejects r2 Hs).
      reflexivity.
Qed.

(** C10.  After a resolved lookup, a creation answered with a status that
    is neither 201 nor 422 nor one [raise_for_status] rejects (200, say)
    makes the call fall through to its last line: it returns [False], and
    prints nothing after the line announcing the creation. *)
Theorem create_github_branch_falls_through w r sha r2 :
  api lookup = Answered r ->
  head_sha r = Ok sha ->
  api (creation sha) = Answered r2 ->
  status_code r2 <> 201 ->
  status_code r2 <> 422 ->
  ~ (400 <= status_code r2 < 600) ->
  branch_creator w =
  (Return false,
   mkWorld (requests w ++ [lookup; creation sha])
           (stdout w ++ opening ++ [FoundSha sha; CreatingBranch new_branch])
           (stdin w)).
Proof.
  intros Hget Hsha Hpost H201 H422 Hs.
  rewrite (creation_answered w r sha r2 Hget Hsha Hpost).
  apply Z.eqb_neq in H201, H422.
  rewrite H201, H422, (raise_for_status_accepts r2 Hs). reflexivity.
Qed.

(** A transport failure of the lookup leaves [response] unbound, and the
    handler that reads it raises in its turn. *)
Lemma lookup_unanswered w t :
  api lookup = Failed t ->
  branch_creator w =
  (Raise (UnboundLocalError "response"),
   mkWorld (requests w ++ [lookup])
           (stdout w ++ opening
              ++ [ErrorFetchingSha base_branch repo_name (RequestFailed t)])
           (stdin w)).
Proof.
  intros Hget. exec. rewrite Hget. cbn [requests stdout stdin]. tidy. reflexivity.
Qed.

End BranchCreator.

(** *** The run of Procedure B *)

(** Subscripting the catalog with one of its keys does not raise. *)
Lemma environment_repos_listed envs env :
  In env (map fst envs) ->
  exists repos, CreateBranches.environment_repos envs env = Ok repos.
Proof.
  induction envs as [|[name repos] envs IH];
    cbn [CreateBranches.environment_repos map fst In]; [tauto|].
  intros [-> | H].
  - rewrite String.eqb_refl. eauto.
  - destruct (name =? env)%string; eauto.
Qed.

Section Run.

Import CreateBranches.

Variable api : request -> reply value.
Variable int : string -> option Z.
Variable lower : string -> string.

Local Notation env_names := (map fst ENVIRONMENTS).
Local Notation branch_creator repo new base :=
  (create_github_branch api repo new base GITHUB_OWNER GITHUB_TOKEN).

Ltac exec :=
  cbv [create_github_branch fetch_sha fetch_failed create_failed
       bind ret raise lift print send try_except]; cbv beta iota.

(** The selection loop returns one of the names on the menu. *)
Lemma select_loop_selects names lines env rest out :
  select_loop int names lines = (Return env, rest, out) -> In env names.
Proof.
  revert env rest out. induction lines as [|choice lines IH]; intros env rest out; cbn.
  - discriminate.
  - destruct (int choice) as [n|].
    + destruct ((0 <=? n - 1) && (n - 1 <? Z.of_nat (length names))).
      * destruct (nth_error names (Z.to_nat (n - 1))) as [name|] eqn:Hnth; [|discriminate].
        destruct (name =? "")%string.
        -- destruct (select_loop int names lines) as [[o r] l]. intros H. inversion H; subst.
           eapply IH. reflexivity.
        -- intros H. inversion H; subst. eapply nth_error_In, Hnth.
      * destruct (select_loop int names lines) as [[o r] l]. intros H. inversion H; subst.
        eapply IH. reflexivity.
    + destruct (select_loop int names lines) as [[o r] l]. intros H. inversion H; subst.
      eapply IH. reflexivity.
Qed.


(** What the branch creator returns or raises depends on the API alone. *)
Lemma branch_creator_outcome repo new base w w0 :
  fst (branch_creator repo new base w) = fst (branch_creator repo new base w0).
Proof.
  exec.
  destruct (api (GetRef _ _ _ _)) as [r|t]; [|reflexivity].
  destruct (head_sha r) as [sha|e]; cbv beta iota.
  - destruct (api (CreateRef _ _ _ _ _)) as [r2|t]; [|reflexivity].
    destruct (status_code r2 =? 201); [reflexivity|].
    destruct (status_code r2 =? 422); [reflexivity|].
    destruct (raise_for_status r2) as [[]|e]; [reflexivity|].
    destruct (is_RequestException e); reflexivity.
  - destruct (is_RequestException e); [|reflexivity].
    destruct (status_code r =? 404); reflexivity.
Qed.

(** The branch creator returns or raises; it never exits. *)
Lemma branch_creator_ends repo new base w :
  (exists b, fst (branch_creator repo new base w) = Return b)
  \/ (exists e, fst (branch_creator repo new base w) = Raise e).
Proof.
  exec.
  destruct (api (GetRef _ _ _ _)) as [r|t]; [|right; eexists; reflexivity].
  destruct (head_sha r) as [sha|e]; cbv beta iota.
  - destruct (api (CreateRef _ _ _ _ _)) as [r2|t]; [|left; eexists; reflexivity].
    destruct (status_code r2 =? 201); [left; eexists; reflexivity|].
    destruct (status_code r2 =? 422); [left; eexists; reflexivity|].
    destruct (raise_for_status r2) as [[]|e]; [left; eexists; reflexivity|].
    destruct (is_RequestException e); [left|right]; eexists; reflexivity.
  - destruct (is_RequestException e); [|right; eexists; reflexivity].
    destruct (status_code r =? 404); left; eexists; reflexivity.
Qed.

Local Notation counted_successful new base :=
  (fun repo => branch_outcome api repo new base = Return true).

(** Once [all_successful] is [False] it stays so. *)
Lemma create_branches_failed repos new base w :
  fst (create_branches api repos new base false w) = Return false
  \/ exists e, fst (create_branches api repos new base false w) = Raise e.
Proof.
  revert w. induction repos as [|repo repos IH]; intros w; cbn [create_branches].
  - left. reflexivity.
  - unfold bind.
    destruct (branch_creator_ends repo new base w) as [[b Hb] | [e He]];
      destruct (branch_creator repo new base w) as [o w']; cbn [fst] in *; subst o.
    + destruct b; apply IH.
    + right. eexists. reflexivity.
Qed.

(** The loop of step 5 keeps [all_successful] when every call returns
    [True]; otherwise it ends with [False] or with the exception of the
    call that raised. *)
Lemma create_branches_outcome repos new base all_successful w :
  (Forall (counted_successful new base) repos ->
     fst (create_branches api repos new base all_successful w) = Return all_successful)
  /\ (Exists (fun repo => ~ counted_successful new base repo) repos ->
     fst (create_branches api repos new base all_successful w) = Return false
     \/ exists e, fst (create_branches api repos new base all_successful w) = Raise e).
Proof.
  revert all_successful w.
  induction repos as [|repo repos IH]; intros flag w; cbn [create_branches].
  - split; [reflexivity|]. intros H. inversion H.
  - unfold bind.
    pose proof (branch_creator_outcome repo new base w (mkWorld [] [] [])) as Hsame.
    fold (branch_outcome api repo new base) in Hsame.
    destruct (branch_creator_ends repo new base w) as [[b Hb] | [e Hb]];
      destruct (branch_creator repo new base w) as [o w']; cbn [fst] in *;
      rewrite Hb in *; symmetry in Hsame.
    + destruct b; cbn [negb].
      * destruct (IH flag w') as [IHall IHsome]. split.
        -- intros H. inversion H; subst. auto.
        -- intros H. inversion H; subst; [congruence | auto].
      * split.
        -- intros H. inversion H; subst. congruence.
        -- intros _. apply create_branches_failed.
    + split.
      * intros H. inversion H; subst. congruence.
      * intros _. right. eexists. reflexivity.
Qed.

Lemma counted_or_not repos new base :
  Forall (counted_successful new base) repos
  \/ Exists (fun repo => ~ counted_successful new base repo) repos.
Proof.
  induction repos as [|repo repos [IH | IH]].
  - left. constructor.
  - destruct (branch_outcome api repo new base) as [[|]| | |] eqn:Ho;
      try (right; apply Exists_cons_hd; congruence).
    left. constructor; assumption.
  - right. apply Exists_cons_tl, IH.
Qed.

(** Printing issues no request and reads no input. *)
Lemma print_menu_quiet i names w :
  exists out, print_menu i names w = (Return tt, mkWorld (requests w) out (stdin w)).
Proof.
  revert i w. induction names as [|name names IH]; intros i w; cbn [print_menu].
  - exists (stdout w). destruct w; reflexivity.
  - unfold bind, print. exact (IH _ _).
Qed.

Lemma print_plan_quiet repos w :
  exists out, print_plan repos w = (Return tt, mkWorld (requests w) out (stdin w)).
Proof.
  revert w. induction repos as [|repo repos IH]; intros w; cbn [print_plan].
  - exists (stdout w). destruct w; reflexivity.
  - unfold bind, print. exact (IH _).
Qed.

Ltac next := cbv beta iota; cbn [requests stdout stdin].

Ltac quiet :=
  match goal with
  | |- context [print_menu ?i ?n ?w] =>
      let out := fresh "out" in
      destruct (print_menu_quiet i n w) as [out ->]
  | |- context [print_plan ?r ?w] =>
      let out := fresh "out" in
      destruct (print_plan_quiet r w) as [out ->]
  end; next.

Ltac run_main :=
  cbv [main bind print ret lift exit input select_environment raise]; cbv beta iota;
  cbn [requests stdout stdin].

(** After a confirmation, [main] is the loop of step 5 and what follows
    it, run from a world that differs from the first one by what was
    printed and read. *)
Lemma main_confirmed w env new base confirm rest out :
  select_loop int env_names (stdin w) = (Return env, new :: base :: confirm :: rest, out) ->
  new <> "" -> declined lower confirm = false ->
  exists repos,
    environment_repos ENVIRONMENTS env = Ok repos
    /\ forall P : outcome unit * world -> Prop,
        (forall out',
           P ((all_successful <-
                 create_branches api repos new
                   (if (base =? "")%string then DEFAULT_BASE_BRANCH else base) true ;;
               if all_successful then print AllDone
               else (print SomeFailed ;; exit 1))
                (mkWorld (requests w) out' rest))) ->
        P (main api int lower w).
Proof.
  intros Hsel Hnew Hconfirm.
  destruct (environment_repos_listed ENVIRONMENTS env) as [repos Hrepos].
  { eapply select_loop_selects, Hsel. }
  exists repos. split; [assumption|]. intros P HP.
  run_main. quiet. rewrite Hsel, Hrepos. next.
  apply String.eqb_neq in Hnew. rewrite Hnew. next.
  quiet. rewrite Hconfirm. next.
  apply HP.
Qed.

(** A run without a confirmation issues no request. *)
Lemma main_quiet_unless_confirmed w :
  (exists env new base confirm rest out,
     select_loop int env_names (stdin w)
       = (Return env, new :: base :: confirm :: rest, out)
     /\ new <> "" /\ declined lower confirm = false)
  \/ requests (snd (main api int lower w)) = requests w.
Proof.
  destruct (select_loop int env_names (stdin w)) as [[o rest] out] eqn:Hsel.
  destruct o as [env|e|c|].
  2-4: right; run_main; quiet; rewrite Hsel; next; reflexivity.
  destruct (environment_repos_listed ENVIRONMENTS env) as [repos Hrepos].
  { eapply select_loop_selects, Hsel. }
  destruct rest as [|new more].
  { right. run_main. quiet. rewrite Hsel, Hrepos. next. reflexivity. }
  destruct (new =? "")%string eqn:Hnew.
  { right. run_main. quiet. rewrite Hsel, Hrepos. next.
    rewrite Hnew. next. reflexivity. }
  destruct more as [|base [|confirm rest]].
  1-2: right; run_main; quiet; rewrite Hsel, Hrepos; next;
       rewrite Hnew; next; try quiet; reflexivity.
  destruct (declined lower confirm) eqn:Hconfirm.
  - right. run_main. quiet. rewrite Hsel, Hrepos. next.
    rewrite Hnew. next. quiet. rewrite Hconfirm. reflexivity.
  - left. exists env, new, base, confirm, rest, out. apply String.eqb_neq in Hnew. auto.
Qed.

Lemma main_empty_branch w env more out :
  select_loop int env_names (stdin w) = (Return env, "" :: more, out) ->
  fst (main api int lower w) = Exit 1
  /\ requests (snd (main api int lower w)) = requests w.
Proof.
  intros Hsel.
  destruct (environment_repos_listed ENVIRONMENTS env) as [repos Hrepos].
  { eapply select_loop_selects, Hsel. }
  run_main. quiet. rewrite Hsel, Hrepos. next. split; reflexivity.
Qed.

Lemma main_declined w env new base confirm rest out :
  select_loop int env_names (stdin w)
    = (Return env, new :: base :: confirm :: rest, out) ->
  new <> "" -> declined lower confirm = true ->
  fst (main api int lower w) = Exit 0
  /\ requests (snd (main api int lower w)) = requests w.
Proof.
  intros Hsel Hnew Hconfirm.
  destruct (environment_repos_listed ENVIRONMENTS env) as [repos Hrepos].
  { eapply select_loop_selects, Hsel. }
  run_main. quiet. rewrite Hsel, Hrepos. next.
  apply String.eqb_neq in Hnew. rewrite Hnew. next.
  quiet. rewrite Hconfirm. next. split; reflexivity.
Qed.

Lemma declined_false confirm :
  declined lower confirm = false <-> lower confirm = "y" \/ lower confirm = "yes".
Proof.
  unfold declined. cbn [existsb]. rewrite negb_false_iff, orb_false_r, orb_true_iff.
  rewrite !String.eqb_eq. reflexivity.
Qed.

Local Notation successful new base :=
  (fun repo => branch_outcome api repo new base = Return true).

Lemma successful_not_both repos new base :
  Forall (successful new base) repos ->
  Exists (fun repo => ~ successful new base repo) repos -> False.
Proof.
  intros Hall Hsome. apply Exists_exists in Hsome. destruct Hsome as [repo [Hin Hno]].
  rewrite Forall_forall in Hall. exact (Hno (Hall repo Hin)).
Qed.

(** C7.  Once the operator has picked an environment and the console holds
    the answers to the three prompts that follow, the exit status is
    - 0 exactly when the branch name is not empty and either the operator
      declines at the confirmation gate or every repository of the
      environment is counted successful;
    - 1 exactly when the branch name is empty, or the operator confirmed and
      the call made for some repository did not return [True];
    and the empty branch name ends the process with no request issued. *)
Theorem main_exit_status w env new base confirm rest out :
  select_loop int env_names (stdin w)
    = (Return env, new :: base :: confirm :: rest, out) ->
  exists repos,
    environment_repos ENVIRONMENTS env = Ok repos
    /\ let status := exit_status (fst (main api int lower w)) in
       let base_branch :=
         if (base =? "")%string then DEFAULT_BASE_BRANCH else base in
       let successful repo :=
         branch_outcome api repo new base_branch = Return true in
       (status = 0 <->
          new <> "" /\ (declined lower confirm = true \/ Forall successful repos))
       /\ (status = 1 <->
          new = "" \/ (declined lower confirm = false
                       /\ Exists (fun repo => ~ successful repo) repos))
       /\ (new = "" -> requests (snd (main api int lower w)) = requests w).
Proof.
  intros Hsel.
  destruct (string_dec new "") as [Hnew | Hnew].
  { subst new. destruct (main_empty_branch w env _ out Hsel) as [Hexit Hreq].
    destruct (environment_repos_listed ENVIRONMENTS env) as [repos Hrepos].
    { eapply select_loop_selects, Hsel. }
    exists repos. split; [assumption|]. cbv zeta. rewrite Hexit. cbn [exit_status].
    split; [|split].
    + split; [discriminate|]. intros [H _]. contradiction.
    + split; [|reflexivity]. intros _. left. reflexivity.
    + intros _. assumption. }
  destruct (declined lower confirm) eqn:Hconfirm.
  { destruct (main_declined w env new base confirm rest out Hsel Hnew Hconfirm)
      as [Hexit Hreq].
    destruct (environment_repos_listed ENVIRONMENTS env) as [repos Hrepos].
    { eapply select_loop_selects, Hsel. }
    exists repos. split; [assumption|]. cbv zeta. rewrite Hexit. cbn [exit_status].
    split; [|split].
    + split; [|reflexivity]. intros _. split; [assumption | left; reflexivity].
    + split; [discriminate|]. intros [H | [H _]]; [contradiction | discriminate].
    + intros H. contradiction. }
  destruct (main_confirmed w env new base confirm rest out Hsel Hnew Hconfirm)
    as [repos [Hrepos Hrun]].
  exists repos. split; [assumption|]. cbv zeta.
  set (base_branch := if (base =? "")%string then DEFAULT_BASE_BRANCH else base) in *.
  destruct (counted_or_not repos new base_branch) as [Hall | Hsome].
  - assert (Hexit : exit_status (fst (main api int lower w)) = 0).
    { apply Hrun. intros out'. unfold bind.
      pose proof (proj1 (create_branches_outcome repos new base_branch true
                           (mkWorld (requests w) out' rest)) Hall) as Hloop.
      destruct (create_branches _ _ _ _ _ _) as [o w']. cbn [fst] in Hloop.
      subst o. reflexivity. }
    rewrite Hexit. split; [|split].
    + split; [intros _; split; [assumption | right; assumption] | reflexivity].
    + split; [discriminate|]. intros [H | [_ H]]; [contradiction|].
      destruct (successful_not_both repos new base_branch Hall H).
    + intros H. contradiction.
  - assert (Hexit : exit_status (fst (main api int lower w)) = 1).
    { apply Hrun. intros out'. unfold bind.
      pose proof (proj2 (create_branches_outcome repos new base_branch true
                           (mkWorld (requests w) out' rest)) Hsome) as Hloop.
      destruct (create_branches _ _ _ _ _ _) as [o w']. cbn [fst] in Hloop.
      destruct Hloop as [-> | [e ->]]; reflexivity. }
    rewrite Hexit. split; [|split].
    + split; [discriminate|]. intros [_ [H | H]]; [discriminate|].
      destruct (successful_not_both repos new base_branch H Hsome).
    + split; [|reflexivity]. intros _. right. split; [reflexivity | assumption].
    + intros H. contradiction.
Qed.

(** C8.  A run that issues any request has read, at the confirmation
    prompt, an answer whose lower-cased form is "y" or "yes"; and any other
    answer at that prompt ends the process with [sys.exit(0)] and no
    request issued. *)
Theorem requests_need_confirmation w :
  (requests (snd (main api int lower w)) <> requests w ->
     exists env new base confirm rest out,
       select_loop int env_names (stdin w)
         = (Return env, new :: base :: confirm :: rest, out)
       /\ (lower confirm = "y" \/ lower confirm = "yes"))
  /\ (forall env new base confirm rest out,
        select_loop int env_names (stdin w)
          = (Return env, new :: base :: confirm :: rest, out) ->
        new <> "" ->
        lower confirm <> "y" -> lower confirm <> "yes" ->
        fst (main api int lower w) = Exit 0
        /\ requests (snd (main api int lower w)) = requests w).
Proof.
  split.
  - intros Hchanged.
    destruct (main_quiet_unless_confirmed w)
      as [(env & new & base & confirm & rest & out & Hsel & _ & Hconfirm) | Hsame];
      [|contradiction].
    exists env, new, base, confirm, rest, out. split; [assumption|].
    apply declined_false, Hconfirm.
  - intros env new base confirm rest out Hsel Hnew Hy Hyes.
    apply (main_declined w env new base confirm rest out Hsel Hnew).
    destruct (declined lower confirm) eqn:Hconfirm; [reflexivity|].
    apply declined_false in Hconfirm. tauto.
Qed.

End Run.

(** *** Concrete runs of Procedure B *)

Section BranchRuns.

Import CreateBranches.

Local Notation run_creator get_status post_status :=
  (create_github_branch (Scenario.branch_api get_status post_status)
     "te-escpos-pax" "release-42" "main" GITHUB_OWNER GITHUB_TOKEN
     (Scenario.console [])).
Local Notation lookup := (GetRef GITHUB_OWNER "te-escpos-pax" "main" GITHUB_TOKEN).
Local Notation creation :=
  (CreateRef GITHUB_OWNER "te-escpos-pax" "refs/heads/release-42"
     (VStr "0a1b2c") GITHUB_TOKEN).
Local Notation run_main api lines :=
  (main api Scenario.int Scenario.lower (Scenario.console lines)).

(** C1 as stated fails: a lookup answered 300, which is no success status,
    is not rejected by [raise_for_status]; the body is read, the creation
    request is issued and the repository is counted successful. *)
Lemma lookup_answered_300_creates_the_ref :
  Scenario.branch_api 300 201 lookup
    = Answered (mkResponse 300 "lookup body" (Some (Scenario.ref_body "0a1b2c")))
  /\ ~ (200 <= 300 < 300)
  /\ fst (run_creator 300 201) = Return true
  /\ requests (snd (run_creator 300 201)) = [lookup; creation].
Proof.
  split; [reflexivity|]. split; [lia|]. split; reflexivity.
Qed.

Lemma create_github_branch_by_status_witness :
  fst (run_creator 404 201) = Return false
  /\ requests (snd (run_creator 404 201)) = [lookup]
  /\ fst (run_creator 503 201) = Return false
  /\ In (ResponseBody "lookup body") (stdout (snd (run_creator 503 201)))
  /\ fst (run_creator 200 201) = Return true
  /\ fst (run_creator 200 422) = Return true
  /\ fst (run_creator 200 403) = Return false
  /\ In (ResponseBody "creation body") (stdout (snd (run_creator 200 403))).
Proof.
  pose proof (fun g p =>
    create_github_branch_by_status (Scenario.branch_api g p)
      "te-escpos-pax" "release-42" "main" GITHUB_OWNER GITHUB_TOKEN
      (Scenario.console [])
      (mkResponse g "lookup body" (Some (Scenario.ref_body "0a1b2c")))
      eq_refl) as H.
  destruct (H 404 201) as [H404 _].
  destruct (H 503 201) as [_ [H503 _]].
  destruct (H 200 201) as [_ [_ H201]].
  destruct (H 200 422) as [_ [_ H422]].
  destruct (H 200 403) as [_ [_ H403]].
  cbn [status_code text] in *.
  rewrite (H404 eq_refl).
  rewrite (H503 ltac:(lia) ltac:(discriminate)).
  destruct (H201 (VStr "0a1b2c") (mkResponse 201 "creation body" None) eq_refl eq_refl)
    as [Hcreated _].
  destruct (H422 (VStr "0a1b2c") (mkResponse 422 "creation body" None) eq_refl eq_refl)
    as [Hexists _].
  destruct (H403 (VStr "0a1b2c") (mkResponse 403 "creation body" None) eq_refl eq_refl)
    as [_ Hforbidden].
  cbn [status_code text] in *.
  rewrite (proj1 (Hcreated (or_introl eq_refl))).
  rewrite (proj1 (Hexists (or_intror eq_refl))).
  rewrite (Hforbidden ltac:(lia) ltac:(discriminate)).
  cbn. intuition.
Defined.

Lemma create_github_branch_falls_through_witness :
  run_creator 200 200
  = (Return false,
     mkWorld [lookup; creation]
             [Rule; ProcessingRepository GITHUB_OWNER "te-escpos-pax";
              FetchingSha "main"; FoundSha (VStr "0a1b2c");
              CreatingBranch "release-42"]
             []).
Proof.
  apply (create_github_branch_falls_through (Scenario.branch_api 200 200)
           "te-escpos-pax" "release-42" "main" GITHUB_OWNER GITHUB_TOKEN
           (Scenario.console [])
           (mkResponse 200 "lookup body" (Some (Scenario.ref_body "0a1b2c")))
           (VStr "0a1b2c")
           (mkResponse 200 "creation body" None));
    try reflexivity; cbn; try discriminate; lia.
Defined.

(** C5 fails on the code.  The API cannot be reached; the operator picks
    ESCPOS (four repositories) and confirms.  The lookup for the first
    repository raises, the handler of [create_github_branch] raises
    UnboundLocalError in its turn, nothing in [main] catches it: the run
    ends there, with the three other repositories never processed. *)
Theorem transport_failure_aborts_the_run :
  environment_repos ENVIRONMENTS "ESCPOS"
    = Ok ["te-escpos-pax"; "te-common-utils"; "te-common-pax"; "te-common-android"]
  /\ fst (run_main Scenario.unreachable_api ["9"; "release-42"; ""; "y"])
     = Raise (UnboundLocalError "response")
  /\ requests (snd (run_main Scenario.unreachable_api ["9"; "release-42"; ""; "y"]))
     = [lookup]
  /\ stdin (snd (run_main Scenario.unreachable_api ["9"; "release-42"; ""; "y"]))
     = [].
Proof.
  repeat split; vm_compute; reflexivity.
Qed.

Lemma main_exit_status_witness :
  exit_status (fst (run_main (Scenario.branch_api 200 422)
                             ["9"; "release-42"; ""; "y"])) = 0
  /\ exit_status (fst (run_main (Scenario.branch_api 200 500)
                                ["9"; "release-42"; ""; "y"])) = 1
  /\ exit_status (fst (run_main (Scenario.branch_api 200 201)
                                ["9"; ""; ""; "y"])) = 1.
Proof.
  split; [|split].
  - destruct (main_exit_status (Scenario.branch_api 200 422) Scenario.int
                Scenario.lower
                (Scenario.console ["9"; "release-42"; ""; "y"])
                "ESCPOS" "release-42" "" "y" [] [] eq_refl)
      as [repos [Hrepos [Hzero _]]].
    apply Hzero. split; [discriminate|]. right.
    injection Hrepos as <-. repeat constructor.
  - destruct (main_exit_status (Scenario.branch_api 200 500) Scenario.int
                Scenario.lower
                (Scenario.console ["9"; "release-42"; ""; "y"])
                "ESCPOS" "release-42" "" "y" [] [] eq_refl)
      as [repos [Hrepos [_ [Hone _]]]].
    apply Hone. right. split; [reflexivity|].
    injection Hrepos as <-. apply Exists_cons_hd. vm_compute. discriminate.
  - destruct (main_exit_status (Scenario.branch_api 200 201) Scenario.int
                Scenario.lower
                (Scenario.console ["9"; ""; ""; "y"])
                "ESCPOS" "" "" "y" [] [] eq_refl)
      as [repos [Hrepos [_ [Hone _]]]].
    apply Hone. left. reflexivity.
Defined.

Lemma requests_need_confirmation_witness :
  (exists env new base confirm rest out,
     select_loop Scenario.int (map fst ENVIRONMENTS) ["9"; "release-42"; ""; "YES"]
       = (Return env, new :: base :: confirm :: rest, out)
     /\ (Scenario.lower confirm = "y" \/ Scenario.lower confirm = "yes"))
  /\ fst (run_main (Scenario.branch_api 200 201) ["9"; "release-42"; "dev"; "no"])
     = Exit 0
  /\ requests (snd (run_main (Scenario.branch_api 200 201)
                             ["9"; "release-42"; "dev"; "no"])) = [].
Proof.
  split.
  - apply (proj1 (requests_need_confirmation (Scenario.branch_api 200 201)
                    Scenario.int Scenario.lower
                    (Scenario.console ["9"; "release-42"; ""; "YES"]))).
    vm_compute. discriminate.
  - apply (proj2 (requests_need_confirmation (Scenario.branch_api 200 201)
                    Scenario.int Scenario.lower
                    (Scenario.console ["9"; "release-42"; "dev"; "no"]))
             "ESCPOS" "release-42" "dev" "no" [] []);
      try reflexivity; vm_compute; discriminate.
Defined.

End BranchRuns.

(** *** The repository lister of Procedure A *)

Lemma filter_Subseq {A} (f : A -> bool) (l : list A) : Subseq (filter f l) l.
Proof.
  induction l as [|x l IH]; cbn [filter].
  - constructor.
  - destruct (f x); constructor; assumption.
Qed.

Section Filter.

Import ReposFromTe.

Lemma selected_iff r :
  selected r = true <->
  prefix "te-" (name r) = true /\ name r <> "te-payment-test".
Proof.
  unfold selected. rewrite andb_true_iff, negb_true_iff, String.eqb_neq.
  reflexivity.
Qed.

(** C3.  A repository of the listing is kept if and only if its name
    starts with "te-" and is not "te-payment-test"; a repository named
    "te-payment-test" is never kept; the repositories kept are in the
    order of the listing, each as often as the listing has it. *)
Theorem filter_repos_selects repos :
  (forall r, In r (filter_repos repos) <->
             In r repos
             /\ prefix "te-" (name r) = true
             /\ name r <> "te-payment-test")
  /\ (forall r, name r = "te-payment-test" -> ~ In r (filter_repos repos))
  /\ Subseq (filter_repos repos) repos
  /\ (forall before after,
        repos = before ++ after ->
        filter_repos repos = filter_repos before ++ filter_repos after).
Proof.
  unfold filter_repos. split; [|split; [|split]].
  - intros r. rewrite filter_In, selected_iff. reflexivity.
  - intros r Hname Hin. apply filter_In in Hin. destruct Hin as [_ Hsel].
    apply selected_iff in Hsel. tauto.
  - apply filter_Subseq.
  - intros before after ->. apply filter_app.
Qed.

End Filter.

Section Lister.

Import ReposFromTe.

Variable list_repos : nat -> reply (list repo).
Variable api : request -> reply value.
Variable path_exists : string -> bool.
Variable run : command -> option exn.
Variable read_text : string -> result string.

Local Notation fetch_repos := (fetch_repos list_repos).
Local Notation listed := (listed list_repos).

Lemma listed_next first data pages :
  listed first (data :: pages) -> listed (S first) pages.
Proof.
  intros [Hpages Hlast]. split.
  - intros i d Hi. specialize (Hpages (S i) d Hi).
    rewrite Nat.add_succ_r in Hpages. exact Hpages.
  - cbn [length] in Hlast. rewrite Nat.add_succ_r in Hlast. exact Hlast.
Qed.

Lemma fetch_repos_listed pages : forall fuel first repos w,
  listed first pages ->
  (length pages < fuel)%nat ->
  exists out,
    fetch_repos fuel first repos w =
    (Return (repos ++ concat pages),
     mkWorld (requests w ++ map ListRepos (seq first (S (length pages))))
             (commands w) out (output w)).
Proof.
  induction pages as [|data pages IH]; intros fuel first repos w Hlisted Hfuel;
    (destruct fuel as [|fuel]; [inversion Hfuel|]).
  - destruct Hlisted as [_ [r [Hget Hlast]]]. cbn [length] in Hget.
    rewrite Nat.add_0_r in Hget.
    cbn [ReposFromTe.fetch_repos].
    cbv [bind print get_page answer ret raise lift]. cbv beta iota.
    rewrite Hget. cbv beta iota. cbn [concat seq map length].
    rewrite app_nil_r.
    destruct (status_code r =? 200) eqn:Hs; cbn [negb].
    + destruct Hlast as [Hlast | Hlast].
      * apply Z.eqb_eq in Hs. contradiction.
      * unfold json_of. rewrite Hlast. eexists. reflexivity.
    + eexists. reflexivity.
  - destruct (proj1 Hlisted 0%nat data eq_refl) as [Hdata [r [Hget [Hs Hjson]]]].
    rewrite Nat.add_0_r in Hget.
    apply listed_next in Hlisted.
    cbn [length] in Hfuel. apply PeanoNat.lt_S_n in Hfuel.
    cbn [ReposFromTe.fetch_repos].
    cbv [bind print get_page answer ret raise lift]. cbv beta iota.
    rewrite Hget. cbv beta iota. apply Z.eqb_eq in Hs. rewrite Hs. cbn [negb].
    unfold json_of. rewrite Hjson.
    destruct data as [|d data]; [contradiction|].
    rewrite Nat.add_1_r.
    destruct (IH fuel (S first) (repos ++ d :: data)
                 (mkWorld (requests w ++ [ListRepos first]) (commands w)
                          (stdout w ++ [FetchingPage first]) (output w))
                 Hlisted Hfuel) as [out Hrec].
    exists out. cbn [requests commands stdout output concat length] in *.
    rewrite Hrec. rewrite <- !app_assoc. reflexivity.
Qed.

(** C2.  When pages 1, 2, ..., n of the listing are answered with 200 and
    are not empty, and page n + 1 is refused (any status but 200) or empty,
    the lister, given fuel for n + 1 pages, requests exactly the pages
    1, ..., n + 1, in this order, and returns the repositories of the pages
    1, ..., n, concatenated in page order. *)
Theorem fetch_repos_concatenates pages fuel w :
  listed 1 pages ->
  (length pages < fuel)%nat ->
  fst (fetch_repos fuel 1 [] w) = Return (concat pages)
  /\ requests (snd (fetch_repos fuel 1 [] w))
     = requests w ++ map ListRepos (seq 1 (S (length pages))).
Proof.
  intros Hlisted Hfuel.
  destruct (fetch_repos_listed pages fuel 1%nat [] w Hlisted Hfuel) as [out ->].
  split; reflexivity.
Qed.

End Lister.

(** *** The branch publisher and the PR opener of Procedure A *)

Section PullRequests.

Import ReposFromTe.

Variable list_repos : nat -> reply (list repo).
Variable api : request -> reply value.
Variable path_exists : string -> bool.
Variable run : command -> option exn.
Variable read_text : string -> result string.

Local Notation create_branch_and_push :=
  (create_branch_and_push path_exists run).
Local Notation create_pull_request := (create_pull_request api).
Local Notation add_reviewers := (add_reviewers api).

(** The one line [add_reviewers] prints. *)
Local Notation reviewers_line repo_name pr_number :=
  (match api (RequestReviewers repo_name pr_number) with
   | Answered r =>
       if status_code r =? 201 then ReviewersAdded pr_number repo_name
       else ReviewersFailed pr_number repo_name (status_code r) (text r)
   | Failed t => ReviewersError pr_number repo_name (RequestFailed t)
   end).

Ltac exec :=
  cbv [ReposFromTe.create_pull_request ReposFromTe.add_reviewers
       bind ret raise lift print post answer try_except is_Exception];
  cbv beta iota.

(** [add_reviewers] issues its one request and returns, whatever the
    answer. *)
Lemma add_reviewers_returns repo_name pr_number w :
  add_reviewers repo_name pr_number w =
  (Return tt,
   mkWorld (requests w ++ [RequestReviewers repo_name pr_number])
           (commands w)
           (stdout w ++ [reviewers_line repo_name pr_number])
           (output w)).
Proof.
  exec. destruct (api (RequestReviewers repo_name pr_number)) as [r|t];
    [destruct (status_code r =? 201)|]; reflexivity.
Qed.

Lemma create_pull_request_absent repo_name w :
  create_pull_request repo_name None w = (Return VNone, w)
  /\ create_pull_request repo_name (Some "") w = (Return VNone, w).
Proof. split; reflexivity. Qed.

Lemma create_pull_request_refused repo_name head w r :
  head <> "" ->
  api (CreatePull repo_name head) = Answered r ->
  status_code r <> 201 ->
  create_pull_request repo_name (Some head) w =
  (Return VNone,
   mkWorld (requests w ++ [CreatePull repo_name head]) (commands w)
           (stdout w ++ [PullRequestFailed repo_name (status_code r) (text r)])
           (output w)).
Proof.
  intros Hhead Hpost Hs. apply String.eqb_neq in Hhead. apply Z.eqb_neq in Hs.
  exec. rewrite Hhead, Hpost. cbv beta iota. rewrite Hs. reflexivity.
Qed.

Lemma create_pull_request_unanswered repo_name head w t :
  head <> "" ->
  api (CreatePull repo_name head) = Failed t ->
  create_pull_request repo_name (Some head) w =
  (Return VNone,
   mkWorld (requests w ++ [CreatePull repo_name head]) (commands w)
           (stdout w ++ [PullRequestError repo_name (RequestFailed t)])
           (output w)).
Proof.
  intros Hhead Hpost. apply String.eqb_neq in Hhead.
  exec. rewrite Hhead, Hpost. reflexivity.
Qed.

Lemma create_pull_request_created repo_name head w r pr_data pr_number pr_link :
  head <> "" ->
  api (CreatePull repo_name head) = Answered r ->
  status_code r = 201 ->
  json r = Some pr_data ->
  getitem pr_data "number" = Ok pr_number ->
  getitem pr_data "html_url" = Ok pr_link ->
  create_pull_request repo_name (Some head) w =
  (Return pr_link,
   mkWorld (requests w ++ [CreatePull repo_name head;
                           RequestReviewers repo_name pr_number])
           (commands w)
           (stdout w ++ [PullRequestCreated repo_name pr_link;
                         reviewers_line repo_name pr_number])
           (output w)).
Proof.
  intros Hhead Hpost Hs Hjson Hnumber Hlink.
  apply String.eqb_neq in Hhead. apply Z.eqb_eq in Hs.
  cbv [ReposFromTe.create_pull_request
       bind ret raise lift print post answer try_except is_Exception json_of];
    cbv beta iota.
  rewrite Hhead, Hpost. cbv beta iota. rewrite Hs, Hjson. cbv beta iota.
  rewrite Hnumber, Hlink. cbv beta iota.
  rewrite add_reviewers_returns. cbn [requests commands stdout output].
  tidy. reflexivity.
Qed.

(** C4.  For a branch name that is present, and a creation request that
    is answered: with any status but 201 the PR opener returns [None] and
    issues no request after the creation request; with status 201 and a
    body carrying [number] and [html_url] it returns that very [html_url]
    and issues, after the creation request, exactly one reviewer request,
    for that [number]. *)
Theorem create_pull_request_by_status repo_name head w r :
  head <> "" ->
  api (CreatePull repo_name head) = Answered r ->
  (status_code r <> 201 ->
     fst (create_pull_request repo_name (Some head) w) = Return VNone
     /\ requests (snd (create_pull_request repo_name (Some head) w))
        = requests w ++ [CreatePull repo_name head])
  /\ (status_code r = 201 ->
      forall pr_data pr_number pr_link,
        json r = Some pr_data ->
        getitem pr_data "number" = Ok pr_number ->
        getitem pr_data "html_url" = Ok pr_link ->
        fst (create_pull_request repo_name (Some head) w) = Return pr_link
        /\ requests (snd (create_pull_request repo_name (Some head) w))
           = requests w ++ [CreatePull repo_name head;
                            RequestReviewers repo_name pr_number]).
Proof.
  intros Hhead Hpost. split.
  - intros Hs. rewrite (create_pull_request_refused _ _ w r Hhead Hpost Hs).
    split; reflexivity.
  - intros Hs pr_data pr_number pr_link Hjson Hnumber Hlink.
    rewrite (create_pull_request_created _ _ w r _ _ _
               Hhead Hpost Hs Hjson Hnumber Hlink).
    split; reflexivity.
Qed.


Ltac call_step :=
  match goal with
  | |- context [run ?c] =>
      let e := fresh "e" in
      let Hc := fresh "Hc" in
      destruct (run c) as [e|] eqn:Hc; cbv beta iota;
      cbn [requests commands stdout output]
  end.

(** The branch publisher always returns, with the branch name or with
    [None]; it issues no request and leaves the output file alone; it
    returns [None] only when one of the calls it made raised. *)
Lemma create_branch_and_push_returns repo_url repo_name workflow_content w :
  exists branch calls out,
    create_branch_and_push repo_url repo_name workflow_content w =
    (Return branch,
     mkWorld (requests w) (commands w ++ calls) out (output w))
    /\ (branch = Some branch_name
        \/ (branch = None /\ exists c e, In c calls /\ run c = Some e)).
Proof.
  cbv [ReposFromTe.create_branch_and_push
       bind ret raise print call try_except is_Exception]; cbv beta iota.
  destruct (path_exists ("./" ++ repo_name)); cbv beta iota;
    cbn [requests commands stdout output].
  all: repeat (call_step;
               [ do 3 eexists; split;
                 [ rewrite <- ?app_assoc; cbn [app]; reflexivity
                 | right; split; [reflexivity|];
                   do 2 eexists; split; [|eassumption];
                   repeat (try (left; reflexivity); right) ]
               | ]).
  all: do 3 eexists; split;
    [ rewrite <- ?app_assoc; cbn [app]; reflexivity | left; reflexivity ].
Qed.



Local Notation process := (process api path_exists run).
Local Notation created_urls := (created_urls api).

(** C9.  When the branch publisher yields no branch name, one of the calls
    it made has raised; it has issued no request; and the PR opener, run
    on what it yielded as [main] does, issues no request either and
    returns [None]. *)
Theorem no_branch_no_pull_request repo_url repo_name workflow_content w :
  let published := create_branch_and_push repo_url repo_name workflow_content w in
  fst published = Return None ->
  (exists calls c e,
      commands (snd published) = commands w ++ calls
      /\ In c calls /\ run c = Some e)
  /\ requests (snd published) = requests w
  /\ (branch <- create_branch_and_push repo_url repo_name workflow_content ;;
      create_pull_request repo_name branch) w
     = (Return VNone, snd published).
Proof.
  cbv zeta. unfold bind.
  destruct (create_branch_and_push_returns repo_url repo_name workflow_content w)
    as (branch & calls & out & Hrun & Hbranch).
  rewrite Hrun. cbn [fst snd requests commands]. intros Hnone.
  injection Hnone as ->.
  destruct Hbranch as [Hsome | [_ (c & e & Hin & Hraised)]]; [discriminate|].
  split; [|split; reflexivity].
  exists calls, c, e. auto.
Qed.

Lemma created_urls_app issued issued' :
  created_urls (issued ++ issued') = created_urls issued ++ created_urls issued'.
Proof. apply flat_map_app. Qed.

Lemma created_urls_listing pages_requested :
  created_urls (map ListRepos pages_requested) = [].
Proof.
  induction pages_requested as [|page rest IH]; [reflexivity|exact IH].
Qed.

(** One turn of the loop of step 4: what is added to [pr_urls] is what the
    requests of this turn created. *)
Lemma attempt_records_created repo_url repo_name workflow_content pr_urls w :
  pulls_carry_urls api ->
  exists issued calls out,
    try_except
      (branch <- create_branch_and_push repo_url repo_name workflow_content ;;
       pr_url <- create_pull_request repo_name branch ;;
       if truthy pr_url then ret (pr_urls ++ [pr_url]) else ret pr_urls)
      is_Exception
      (fun e => print (Skipping repo_name e) ;; ret pr_urls) w
    = (Return (pr_urls ++ map VStr (created_urls issued)),
       mkWorld (requests w ++ issued) (commands w ++ calls) out (output w)).
Proof.
  intros Hcontract.
  destruct (create_branch_and_push_returns repo_url repo_name workflow_content w)
    as (branch & calls & out & Hrun & Hbranch).
  unfold try_except, bind. rewrite Hrun.
  set (w1 := mkWorld (requests w) (commands w ++ calls) out (output w)).
  destruct Hbranch as [-> | [-> _]].
  - assert (Hhead : branch_name <> "") by discriminate.
    destruct (api (CreatePull repo_name branch_name)) as [r|t] eqn:Hpost.
    + destruct (Z.eq_dec (status_code r) 201) as [Hs | Hs].
      * destruct (Hcontract _ _ r Hpost Hs)
          as (pr_data & pr_number & url & Hjson & Hnumber & Hlink & Hurl).
        rewrite (create_pull_request_created repo_name branch_name w1 r
                   pr_data pr_number (VStr url) Hhead Hpost Hs Hjson Hnumber Hlink).
        cbn [truthy]. apply String.eqb_neq in Hurl. rewrite Hurl. cbn [negb].
        exists [CreatePull repo_name branch_name;
                RequestReviewers repo_name pr_number], calls.
        eexists. unfold ret, w1. cbn [requests commands stdout output].
        unfold ReposFromTe.created_urls. cbn [flat_map created_url].
        rewrite Hpost. apply Z.eqb_eq in Hs. rewrite Hs.
        unfold json_of. rewrite Hjson. cbn [and_then]. rewrite Hlink.
        reflexivity.
      * rewrite (create_pull_request_refused repo_name branch_name w1 r
                   Hhead Hpost Hs).
        cbn [truthy]. exists [CreatePull repo_name branch_name], calls.
        eexists. unfold ret, w1. cbn [requests commands stdout output].
        unfold ReposFromTe.created_urls. cbn [flat_map created_url].
        rewrite Hpost. apply Z.eqb_neq in Hs. rewrite Hs.
        cbn [map app]. rewrite app_nil_r. reflexivity.
    + rewrite (create_pull_request_unanswered repo_name branch_name w1 t
                 Hhead Hpost).
      cbn [truthy]. exists [CreatePull repo_name branch_name], calls.
      eexists. unfold ret, w1. cbn [requests commands stdout output].
      unfold ReposFromTe.created_urls. cbn [flat_map created_url].
      rewrite Hpost. cbn [map app]. rewrite app_nil_r. reflexivity.
  - rewrite (proj1 (create_pull_request_absent repo_name w1)).
    cbn [truthy]. exists [], calls. eexists. unfold ret, w1.
    cbn [map ReposFromTe.created_urls flat_map]. rewrite !app_nil_r. reflexivity.
Qed.

Lemma process_records_created workflow_content filtered_repos :
  pulls_carry_urls api ->
  forall pr_urls w,
  exists issued calls out,
    process filtered_repos workflow_content pr_urls w
    = (Return (pr_urls ++ map VStr (created_urls issued)),
       mkWorld (requests w ++ issued) (commands w ++ calls) out (output w)).
Proof.
  intros Hcontract.
  induction filtered_repos as [|r rest IH]; intros pr_urls w.
  - exists [], [], (stdout w). cbn. rewrite !app_nil_r. destruct w; reflexivity.
  - cbn [ReposFromTe.process]. unfold bind at 1 2. unfold print at 1.
    destruct (attempt_records_created (clone_url r) (name r) workflow_content
                pr_urls
                (mkWorld (requests w) (commands w)
                         (stdout w ++ [Processing (name r)]) (output w))
                Hcontract)
      as (issued & calls & out & Hturn).
    cbn [requests commands stdout output] in Hturn. rewrite Hturn.
    destruct (IH (pr_urls ++ map VStr (created_urls issued))
                 (mkWorld (requests w ++ issued) (commands w ++ calls) out
                          (output w)))
      as (issued' & calls' & out' & Hrest).
    rewrite Hrest. exists (issued ++ issued'), (calls ++ calls'), out'.
    cbn [requests commands stdout output].
    rewrite created_urls_app, map_app, !app_assoc. reflexivity.
Qed.

Lemma string_app_assoc (a b c : string) :
  ((a ++ b) ++ c)%string = (a ++ b ++ c)%string.
Proof.
  induction a as [|ch a IH]; cbn; [reflexivity | now rewrite IH].
Qed.

Lemma write_lines_appends urls : forall w content,
  output w = Some content ->
  write_lines (map VStr urls) w
  = (Return tt,
     mkWorld (requests w) (commands w) (stdout w)
             (Some (content ++ url_lines urls)%string)).
Proof.
  induction urls as [|url rest IH]; intros w content Hout.
  - cbn. destruct w as [q c o f]. cbn in Hout. subst f.
    assert (Hnil : forall s : string, (s ++ "")%string = s)
      by (induction s as [|ch s IHs]; cbn; [reflexivity | now rewrite IHs]).
    rewrite Hnil. reflexivity.
  - cbn [map write_lines]. unfold bind, write_line. rewrite Hout.
    rewrite (IH (mkWorld (requests w) (commands w) (stdout w)
                         (Some (content ++ url ++ newline)%string))
                (content ++ url ++ newline)%string eq_refl).
    cbn [requests commands stdout output url_lines].
    rewrite !string_app_assoc. reflexivity.
Qed.

(** C6.  With the workflow file in place, a listing that ends within the
    fuel, an API whose 201 answers carry the URL of the pull request, and
    an output file that can be opened, [main] returns, and the output file
    then holds the URLs of the pull requests created by the requests of
    this run, one per line, in the order of their creation, and nothing
    else, whatever the file held before. *)
Theorem main_records_created_urls pages workflow_content fuel w :
  path_exists file_name = true ->
  read_text file_name = Ok workflow_content ->
  listed list_repos 1 pages ->
  (length pages < fuel)%nat ->
  pulls_carry_urls api ->
  run (OpenForWriting output_file) = None ->
  exists issued w',
    main list_repos api path_exists run read_text fuel w = (Return tt, w')
    /\ requests w' = requests w ++ issued
    /\ output w' = Some (url_lines (created_urls issued)).
Proof.
  intros Hexists Hread Hlisted Hfuel Hcontract Hopen.
  unfold main, read_workflow_file. rewrite Hexists, Hread. cbn [negb lift].
  unfold bind at 1. unfold ret at 1.
  destruct (fetch_repos_listed list_repos pages fuel 1%nat [] w Hlisted Hfuel)
    as [out Hfetch].
  unfold bind at 1. rewrite Hfetch. cbn [app].
  destruct (process_records_created workflow_content
              (filter_repos (concat pages)) Hcontract []
              (mkWorld (requests w ++ map ListRepos (seq 1 (S (length pages))))
                       (commands w) out (output w)))
    as (issued & calls & out' & Hprocess).
  unfold bind at 1. rewrite Hprocess.
  cbn [requests commands stdout output app].
  unfold bind, write_output, call, print. unfold bind. rewrite Hopen.
  cbn [requests commands stdout output].
  match goal with
  | |- context [write_lines ?l ?w0] =>
      rewrite (write_lines_appends (created_urls issued) w0 "" eq_refl)
  end.
  cbn [requests commands stdout output].
  eexists. eexists. split; [reflexivity|].
  cbn [requests output]. split.
  - rewrite <- app_assoc. reflexivity.
  - rewrite created_urls_app, created_urls_listing. reflexivity.
Qed.

End PullRequests.

(** *** Concrete runs of Procedure A *)

Section PullRequestRuns.

Import ReposFromTe.

Local Notation run_main listing calls :=
  (main listing Scenario.pulls_api Scenario.only_workflow calls
        Scenario.workflow_text).

Lemma listing_listed :
  listed Scenario.listing 1 [Scenario.first_page; Scenario.second_page].
Proof.
  split.
  - intros [|[|i]] data Hnth; cbn in Hnth; try (destruct i; discriminate);
      injection Hnth as <-; (split; [discriminate|]); eexists;
      (split; [reflexivity|]); split; reflexivity.
  - eexists. split; [reflexivity|]. right. reflexivity.
Qed.

Lemma limited_listing_listed :
  listed Scenario.limited_listing 1 [Scenario.first_page].
Proof.
  split.
  - intros [|i] data Hnth; cbn in Hnth; try (destruct i; discriminate).
    injection Hnth as <-. split; [discriminate|]. eexists.
    split; [reflexivity|]. split; reflexivity.
  - eexists. split; [reflexivity|]. left. discriminate.
Qed.

Lemma pulls_api_carries_urls : pulls_carry_urls Scenario.pulls_api.
Proof.
  intros repo_name head r Hpost Hs. unfold Scenario.pulls_api in Hpost.
  destruct (repo_name =? "te-alpha")%string;
    [|destruct (repo_name =? "te-gamma")%string];
    injection Hpost as <-; try discriminate Hs;
    do 3 eexists; (split; [reflexivity|]); (split; [reflexivity|]);
    (split; [reflexivity|discriminate]).
Qed.

Lemma fetch_repos_concatenates_witness :
  (fst (fetch_repos Scenario.listing 5 1 [] Scenario.fresh)
     = Return (Scenario.first_page ++ Scenario.second_page)
   /\ requests (snd (fetch_repos Scenario.listing 5 1 [] Scenario.fresh))
      = [ListRepos 1; ListRepos 2; ListRepos 3])
  /\ (fst (fetch_repos Scenario.limited_listing 5 1 [] Scenario.fresh)
        = Return Scenario.first_page
      /\ requests (snd (fetch_repos Scenario.limited_listing 5 1 [] Scenario.fresh))
         = [ListRepos 1; ListRepos 2]).
Proof.
  split.
  - apply (fetch_repos_concatenates Scenario.listing
             [Scenario.first_page; Scenario.second_page] 5 Scenario.fresh
             listing_listed).
    cbn. lia.
  - apply (fetch_repos_concatenates Scenario.limited_listing
             [Scenario.first_page] 5 Scenario.fresh limited_listing_listed).
    cbn. lia.
Defined.

Lemma create_pull_request_by_status_witness :
  (fst (create_pull_request Scenario.pulls_api "te-alpha" (Some branch_name)
          Scenario.fresh)
     = Return (VStr "https://github.com/weareplanet/te-alpha/pull/7")
   /\ requests (snd (create_pull_request Scenario.pulls_api "te-alpha"
                       (Some branch_name) Scenario.fresh))
      = [CreatePull "te-alpha" branch_name;
         RequestReviewers "te-alpha" (VInt 7)])
  /\ (fst (create_pull_request Scenario.pulls_api "te-beta" (Some branch_name)
             Scenario.fresh)
        = Return VNone
      /\ requests (snd (create_pull_request Scenario.pulls_api "te-beta"
                          (Some branch_name) Scenario.fresh))
         = [CreatePull "te-beta" branch_name]).
Proof.
  split.
  - refine (proj2 (create_pull_request_by_status Scenario.pulls_api
                     "te-alpha" branch_name Scenario.fresh _ _ eq_refl)
                  eq_refl _ (VInt 7) _ eq_refl eq_refl eq_refl).
    discriminate.
  - refine (proj1 (create_pull_request_by_status Scenario.pulls_api
                     "te-beta" branch_name Scenario.fresh _ _ eq_refl) _).
    + discriminate.
    + cbn. discriminate.
Defined.

Lemma no_branch_no_pull_request_witness :
  (exists calls c e,
      commands (snd (create_branch_and_push Scenario.only_workflow
                       Scenario.push_rejected (clone_url Scenario.te_gamma)
                       "te-gamma" "name: cherrypick" Scenario.fresh))
      = calls
      /\ In c calls /\ Scenario.push_rejected c = Some e)
  /\ (branch <- create_branch_and_push Scenario.only_workflow
                  Scenario.push_rejected (clone_url Scenario.te_gamma)
                  "te-gamma" "name: cherrypick" ;;
      create_pull_request Scenario.pulls_api "te-gamma" branch) Scenario.fresh
     = (Return VNone,
        snd (create_branch_and_push Scenario.only_workflow
               Scenario.push_rejected (clone_url Scenario.te_gamma)
               "te-gamma" "name: cherrypick" Scenario.fresh)).
Proof.
  destruct (no_branch_no_pull_request Scenario.pulls_api Scenario.only_workflow
              Scenario.push_rejected (clone_url Scenario.te_gamma) "te-gamma"
              "name: cherrypick" Scenario.fresh eq_refl)
    as [Hraised [_ Hnone]].
  split; assumption.
Defined.

Lemma main_records_created_urls_witness :
  exists issued w',
    run_main Scenario.listing Scenario.all_goes_well 5 Scenario.stale
      = (Return tt, w')
    /\ requests w' = issued
    /\ output w' = Some (url_lines (created_urls Scenario.pulls_api issued)).
Proof.
  apply (main_records_created_urls Scenario.listing Scenario.pulls_api
           Scenario.only_workflow Scenario.all_goes_well Scenario.workflow_text
           [Scenario.first_page; Scenario.second_page] "name: cherrypick" 5
           Scenario.stale eq_refl eq_refl listing_listed).
  - cbn. lia.
  - exact pulls_api_carries_urls.
  - reflexivity.
Defined.

(** The same run, evaluated: the URLs of the two pull requests created
    replace what the file held. *)
Example main_run :
  output (snd (run_main Scenario.listing Scenario.all_goes_well 5 Scenario.stale))
  = Some (url_lines ["https://github.com/weareplanet/te-alpha/pull/7";
                     "https://github.com/weareplanet/te-gamma/pull/3"]).
Proof. reflexivity. Qed.

End PullRequestRuns.

(** *** The catalog and the listing of the concrete runs *)

(** No environment lists a repository twice: within one run of Procedure B
    every request differs from the others. *)
Lemma environments_list_each_repository_once :
  Forall (fun environment => NoDup (snd environment)) CreateBranches.ENVIRONMENTS.
Proof.
  unfold CreateBranches.ENVIRONMENTS.
  repeat (apply Forall_cons; [cbn [snd]|]); try apply Forall_nil.
  all: repeat (apply NoDup_cons; [cbn [In]; intuition discriminate|]);
    apply NoDup_nil.
Qed.

(** Of the five repositories listed, three are kept, in the order of the
    listing. *)
Example filter_repos_run :
  ReposFromTe.filter_repos (Scenario.first_page ++ Scenario.second_page)
  = [Scenario.te_alpha; Scenario.te_beta; Scenario.te_gamma].
Proof. reflexivity. Qed.

(* ===================================================================== *)
(** ** Further properties of Procedure B                                  *)
(* ===================================================================== *)

Section BranchRequests.

Import CreateBranches.

Variable api : request -> reply value.
Variables repo_name new_branch base_branch owner token : string.

Local Notation lookup := (GetRef owner repo_name base_branch token).
Local Notation creation sha :=
  (CreateRef owner repo_name ("refs/heads/" ++ new_branch)%string sha token).
Local Notation opening :=
  [Rule; ProcessingRepository owner repo_name; FetchingSha base_branch].
Local Notation branch_creator :=
  (create_github_branch api repo_name new_branch base_branch owner token).

Ltac exec :=
  cbv [create_github_branch fetch_sha fetch_failed create_failed
       bind ret raise lift print send try_except]; cbv beta iota.

(** The requests of one call, by the answer to the lookup. *)
Lemma branch_creator_issues w :
  requests (snd (branch_creator w))
  = requests w
    ++ lookup :: match api lookup with
                 | Answered r =>
                     match head_sha r with
                     | Ok sha => [creation sha]
                     | Err _ => []
                     end
                 | Failed _ => []
                 end
  /\ stdin (snd (branch_creator w)) = stdin w.
Proof.
  exec.
  destruct (api lookup) as [r|t]; [|split; reflexivity].
  destruct (head_sha r) as [sha|e]; cbv beta iota.
  - destruct (api (creation sha)) as [r2|t];
      [|cbn [requests stdin snd]; tidy; split; reflexivity].
    destruct (status_code r2 =? 201);
      [cbn [requests stdin snd]; tidy; split; reflexivity|].
    destruct (status_code r2 =? 422);
      [cbn [requests stdin snd]; tidy; split; reflexivity|].
    destruct (raise_for_status r2) as [[]|e];
      [cbn [requests stdin snd]; tidy; split; reflexivity|].
    destruct (is_RequestException e);
      cbn [requests stdin snd]; tidy; split; reflexivity.
  - destruct (is_RequestException e); [|split; reflexivity].
    destruct (status_code r =? 404); split; reflexivity.
Qed.

(** X1.  Whatever the API answers, the branch creator issues the lookup,
    and after it the creation request exactly when the lookup resolved to a
    SHA: for the ref [refs/heads/<new_branch>], with that SHA.  It issues
    nothing else and reads nothing from the console. *)
Theorem create_github_branch_requests w :
  requests (snd (branch_creator w))
  = requests w
    ++ lookup :: match api lookup with
                 | Answered r =>
                     match head_sha r with
                     | Ok sha => [creation sha]
                     | Err _ => []
                     end
                 | Failed _ => []
                 end
  /\ stdin (snd (branch_creator w)) = stdin w.
Proof. exact (branch_creator_issues w). Qed.

(** X2.  After a resolved lookup, a creation request that raises without
    an answer is caught: the call returns [False]; the body it prints is
    that of the answer to the lookup, the last value of [response]. *)
Theorem create_github_branch_creation_unanswered w r sha t :
  api lookup = Answered r ->
  head_sha r = Ok sha ->
  api (creation sha) = Failed t ->
  branch_creator w =
  (Return false,
   mkWorld (requests w ++ [lookup; creation sha])
           (stdout w ++ opening
              ++ [FoundSha sha; CreatingBranch new_branch;
                  ErrorCreatingBranch repo_name (RequestFailed t);
                  ResponseBody (text r)])
           (stdin w)).
Proof.
  intros Hget Hsha Hpost. exec. rewrite Hget, Hsha. cbv beta iota.
  rewrite Hpost. cbn [requests stdout stdin]. tidy. reflexivity.
Qed.

(** X3.  A lookup that is not rejected but whose body is a JSON object
    without the key [object], or with an [object] without the key [sha],
    makes the call raise KeyError: [except RequestException] does not catch
    it, nothing is printed about it and no creation request is issued. *)
Theorem create_github_branch_missing_key w r body key :
  api lookup = Answered r ->
  ~ (400 <= status_code r < 600) ->
  json r = Some (VDict body) ->
  (Py.lookup "object" body = None /\ key = "object"
   \/ exists object,
        Py.lookup "object" body = Some (VDict object)
        /\ Py.lookup "sha" object = None /\ key = "sha") ->
  branch_creator w =
  (Raise (KeyError key),
   mkWorld (requests w ++ [lookup]) (stdout w ++ opening) (stdin w)).
Proof.
  intros Hget Hs Hjson Hkey.
  assert (Hsha : head_sha r = Err (KeyError key)).
  { unfold head_sha, json_of. rewrite (raise_for_status_accepts r Hs), Hjson.
    cbn [and_then getitem].
    destruct Hkey as [[Hobject ->] | (object & Hobject & Hmissing & ->)];
      rewrite Hobject; cbn [and_then getitem]; [reflexivity|].
    rewrite Hmissing. reflexivity. }
  exec. rewrite Hget, Hsha. cbv beta iota. cbn [is_RequestException].
  cbn [requests stdout stdin]. tidy. reflexivity.
Qed.

End BranchRequests.

Section Selection.

Import CreateBranches.

Variable api : request -> reply value.
Variable int : string -> option Z.
Variable lower : string -> string.

Local Notation env_names := (map fst ENVIRONMENTS).
Local Notation complaint := (complaint int).
Local Notation select_loop := (select_loop int).

Lemma select_loop_complains names choice said lines :
  complaint names choice = Some said ->
  select_loop names (choice :: lines)
  = (let '(o, rest, out) := select_loop names lines in (o, rest, said :: out)).
Proof.
  unfold CreateBranches.complaint. cbn [CreateBranches.select_loop].
  destruct (int choice) as [n|].
  - destruct ((0 <=? n - 1) && (n - 1 <? Z.of_nat (length names)));
      [discriminate|].
    intros Hsaid. injection Hsaid as <-. reflexivity.
  - intros Hsaid. injection Hsaid as <-. reflexivity.
Qed.

(** X4.  The selection loop passes over every choice that is not a number
    or is a number outside the menu, printing one line for each, and takes
    the first choice within the menu: it returns the name at that
    (1-based) position and leaves the rest of the console unread. *)
Theorem select_loop_takes_first_valid names skipped said choice n env rest :
  Forall2 (fun c l => complaint names c = Some l) skipped said ->
  int choice = Some n ->
  1 <= n <= Z.of_nat (length names) ->
  nth_error names (Z.to_nat (n - 1)) = Some env ->
  env <> "" ->
  select_loop names (skipped ++ choice :: rest) = (Return env, rest, said).
Proof.
  intros Hskipped Hint Hrange Hnth Henv.
  induction Hskipped as [|c l skipped said Hc _ IH].
  - cbn [app CreateBranches.select_loop]. rewrite Hint.
    assert (Hin : (0 <=? n - 1) && (n - 1 <? Z.of_nat (length names)) = true).
    { apply andb_true_iff. split; [apply Z.leb_le | apply Z.ltb_lt]; lia. }
    rewrite Hin, Hnth. apply String.eqb_neq in Henv. rewrite Henv. reflexivity.
  - cbn [app]. rewrite (select_loop_complains names c l _ Hc), IH. reflexivity.
Qed.

(** X5.  When no choice on the console is within the menu, the selection
    loop complains about each and ends with EOFError at the end of the
    console; [main] ends with that exception (exit status 1) and no request
    issued. *)
Theorem main_console_runs_out said w :
  Forall2 (fun c l => complaint env_names c = Some l) (stdin w) said ->
  select_loop env_names (stdin w) = (Raise EOFError, [], said)
  /\ fst (main api int lower w) = Raise EOFError
  /\ exit_status (fst (main api int lower w)) = 1
  /\ requests (snd (main api int lower w)) = requests w.
Proof.
  intros Hlines.
  assert (Hloop : select_loop env_names (stdin w) = (Raise EOFError, [], said)).
  { induction Hlines as [|c l lines said Hc _ IH]; [reflexivity|].
    rewrite (select_loop_complains env_names c l _ Hc), IH. reflexivity. }
  split; [assumption|].
  cbv [main bind print ret lift exit input select_environment raise];
    cbv beta iota; cbn [requests stdout stdin].
  destruct (print_menu_quiet 0 env_names
              (mkWorld (requests w) (stdout w ++ [SelectEnvironment]) (stdin w)))
    as [out ->].
  cbv beta iota; cbn [requests stdout stdin]. rewrite Hloop.
  repeat split.
Qed.

Local Notation successful_or_not new base :=
  (fun repo => exists b, branch_outcome api repo new base = Return b).

(** The loop of step 5 looks up every repository, one after the other, as
    long as no call raises. *)
Lemma create_branches_looks_up new base repos : forall all_successful w,
  Forall (successful_or_not new base) repos ->
  exists issued,
    requests (snd (create_branches api repos new base all_successful w))
    = requests w ++ issued
    /\ flat_map looked_up issued = map (fun repo => (repo, base)) repos.
Proof.
  induction repos as [|repo repos IH]; intros flag w Hall.
  - exists []. cbn. rewrite app_nil_r. split; reflexivity.
  - inversion Hall as [|? ? [b Hb] Hrest]; subst.
    cbn [create_branches]. unfold bind.
    pose proof (branch_creator_outcome api repo new base w (mkWorld [] [] []))
      as Hsame.
    fold (branch_outcome api repo new base) in Hsame. rewrite Hb in Hsame.
    pose proof (proj1 (branch_creator_issues api repo new base GITHUB_OWNER
                         GITHUB_TOKEN w)) as Hissued.
    destruct (create_github_branch api repo new base GITHUB_OWNER GITHUB_TOKEN w)
      as [o w1]. cbn [fst snd] in Hsame, Hissued. subst o.
    destruct (IH (if negb b then false else flag) w1 Hrest)
      as [issued [Hreq Hlooked]].
    rewrite Hreq, Hissued, <- app_assoc. eexists. split; [reflexivity|].
    rewrite flat_map_app, Hlooked. cbn [flat_map looked_up map app].
    destruct (api (GetRef GITHUB_OWNER repo base GITHUB_TOKEN)) as [r|t];
      [destruct (head_sha r)|]; reflexivity.
Qed.

(** X6.  After a confirmation, and as long as no call raises, [main] looks
    up every repository of the chosen environment exactly once, in the
    order of the catalog, each against the base branch typed at the prompt
    ([DEFAULT_BASE_BRANCH] when nothing was typed): a repository that
    fails does not keep the following ones from being processed. *)
Theorem main_looks_up_every_repository w env new base confirm rest out repos :
  select_loop env_names (stdin w)
    = (Return env, new :: base :: confirm :: rest, out) ->
  new <> "" ->
  declined lower confirm = false ->
  environment_repos ENVIRONMENTS env = Ok repos ->
  let base_branch := if (base =? "")%string then DEFAULT_BASE_BRANCH else base in
  Forall (successful_or_not new base_branch) repos ->
  exists issued,
    requests (snd (main api int lower w)) = requests w ++ issued
    /\ flat_map looked_up issued = map (fun repo => (repo, base_branch)) repos.
Proof.
  intros Hsel Hnew Hconfirm Hrepos base_branch Hall.
  destruct (main_confirmed api int lower w env new base confirm rest out
              Hsel Hnew Hconfirm) as [repos' [Hrepos' Hrun]].
  rewrite Hrepos in Hrepos'. injection Hrepos' as <-.
  apply Hrun. intros out'. fold base_branch.
  destruct (create_branches_looks_up new base_branch repos true
              (mkWorld (requests w) out' rest) Hall) as [issued [Hreq Hlooked]].
  exists issued. split; [|assumption].
  unfold bind.
  destruct (create_branches api repos new base_branch true _) as [o w1].
  cbn [snd requests] in Hreq.
  destruct o as [[|]|e|c|]; cbn [snd requests]; assumption.
Qed.

End Selection.

Section FurtherBranchRuns.

Import CreateBranches.

Local Notation lookup := (GetRef GITHUB_OWNER "te-escpos-pax" "main" GITHUB_TOKEN).
Local Notation creation :=
  (CreateRef GITHUB_OWNER "te-escpos-pax" "refs/heads/release-42"
     (VStr "0a1b2c") GITHUB_TOKEN).
Local Notation run_creator api :=
  (create_github_branch api "te-escpos-pax" "release-42" "main"
     GITHUB_OWNER GITHUB_TOKEN (Scenario.console [])).
Local Notation opening :=
  [Rule; ProcessingRepository GITHUB_OWNER "te-escpos-pax"; FetchingSha "main"].

Lemma create_github_branch_creation_unanswered_witness :
  run_creator Scenario.cut_off_api
  = (Return false,
     mkWorld [lookup; creation]
             (opening ++ [FoundSha (VStr "0a1b2c"); CreatingBranch "release-42";
                          ErrorCreatingBranch "te-escpos-pax" (RequestFailed Timeout);
                          ResponseBody "lookup body"])
             []).
Proof.
  exact (create_github_branch_creation_unanswered Scenario.cut_off_api
           "te-escpos-pax" "release-42" "main" GITHUB_OWNER GITHUB_TOKEN
           (Scenario.console [])
           (mkResponse 200 "lookup body" (Some (Scenario.ref_body "0a1b2c")))
           (VStr "0a1b2c") Timeout eq_refl eq_refl eq_refl).
Defined.

Lemma create_github_branch_missing_key_witness :
  run_creator Scenario.bare_api
  = (Raise (KeyError "object"), mkWorld [lookup] opening []).
Proof.
  apply (create_github_branch_missing_key Scenario.bare_api
           "te-escpos-pax" "release-42" "main" GITHUB_OWNER GITHUB_TOKEN
           (Scenario.console [])
           (mkResponse 200 "{...}" (Some (VDict [("message", VStr "ok")])))
           [("message", VStr "ok")] "object" eq_refl).
  - cbn. lia.
  - reflexivity.
  - left. split; reflexivity.
Defined.

Lemma select_loop_takes_first_valid_witness :
  select_loop Scenario.int (map fst ENVIRONMENTS)
              ["nine"; "0"; "12"; "9"; "release-42"]
  = (Return "ESCPOS", ["release-42"],
     [InvalidInput; InvalidNumber; InvalidNumber]).
Proof.
  apply (select_loop_takes_first_valid Scenario.int (map fst ENVIRONMENTS)
           ["nine"; "0"; "12"] [InvalidInput; InvalidNumber; InvalidNumber]
           "9" 9 "ESCPOS" ["release-42"]).
  - repeat constructor.
  - reflexivity.
  - cbn. lia.
  - reflexivity.
  - discriminate.
Defined.

Lemma main_console_runs_out_witness :
  fst (main Scenario.unreachable_api Scenario.int Scenario.lower
            (Scenario.console ["nine"; "0"]))
  = Raise EOFError.
Proof.
  destruct (main_console_runs_out Scenario.unreachable_api Scenario.int
              Scenario.lower [InvalidInput; InvalidNumber]
              (Scenario.console ["nine"; "0"]))
    as [_ [Hraised _]].
  - repeat constructor.
  - exact Hraised.
Defined.

Lemma main_looks_up_every_repository_witness :
  exists issued,
    requests (snd (main (Scenario.branch_api 404 201) Scenario.int Scenario.lower
                        (Scenario.console ["9"; "release-42"; ""; "y"])))
    = issued
    /\ flat_map looked_up issued
       = [("te-escpos-pax", "main"); ("te-common-utils", "main");
          ("te-common-pax", "main"); ("te-common-android", "main")].
Proof.
  apply (main_looks_up_every_repository (Scenario.branch_api 404 201)
           Scenario.int Scenario.lower
           (Scenario.console ["9"; "release-42"; ""; "y"])
           "ESCPOS" "release-42" "" "y" [] []
           ["te-escpos-pax"; "te-common-utils"; "te-common-pax";
            "te-common-android"]
           eq_refl).
  - discriminate.
  - reflexivity.
  - reflexivity.
  - repeat constructor; exists false; reflexivity.
Defined.

End FurtherBranchRuns.

(* ===================================================================== *)
(** ** Further properties of Procedure A                                  *)
(* ===================================================================== *)

Section Opener.

Import ReposFromTe.

Variable api : request -> reply value.

Local Notation create_pull_request := (create_pull_request api).

(** What line 94 to 96 read from the body of a 201 answer: the number and
    the URL of the pull request. *)
Local Notation number_and_url r :=
  (and_then (json_of r) (fun pr_data =>
   and_then (getitem pr_data "number") (fun pr_number =>
   and_then (getitem pr_data "html_url") (fun pr_link =>
   Ok (pr_number, pr_link))))).

Ltac exec :=
  cbv [ReposFromTe.create_pull_request ReposFromTe.add_reviewers
       bind ret raise lift print post answer try_except is_Exception];
  cbv beta iota.

(** The PR opener, by the answer to the creation request. *)
Lemma create_pull_request_cases repo_name head w :
  head <> "" ->
  exists v out,
    create_pull_request repo_name (Some head) w
    = (Return v,
       mkWorld (requests w
                ++ CreatePull repo_name head
                   :: match api (CreatePull repo_name head) with
                      | Answered r =>
                          if status_code r =? 201 then
                            match number_and_url r with
                            | Ok (pr_number, _) =>
                                [RequestReviewers repo_name pr_number]
                            | Err _ => []
                            end
                          else []
                      | Failed _ => []
                      end)
               (commands w) out (output w))
    /\ v = match api (CreatePull repo_name head) with
           | Answered r =>
               if status_code r =? 201 then
                 match number_and_url r with
                 | Ok (_, pr_link) => pr_link
                 | Err _ => VNone
                 end
               else VNone
           | Failed _ => VNone
           end.
Proof.
  intros Hhead. apply String.eqb_neq in Hhead.
  exec. rewrite Hhead.
  destruct (api (CreatePull repo_name head)) as [r|t];
    [|do 2 eexists; split; reflexivity].
  cbv beta iota.
  destruct (status_code r =? 201); [|do 2 eexists; split; reflexivity].
  destruct (json_of r) as [pr_data|e]; cbn [and_then];
    [|do 2 eexists; split; reflexivity].
  destruct (getitem pr_data "number") as [pr_number|e]; cbn [and_then];
    [|do 2 eexists; split; reflexivity].
  destruct (getitem pr_data "html_url") as [pr_link|e]; cbn [and_then];
    [|do 2 eexists; split; reflexivity].
  cbv beta iota. cbn [requests commands stdout output].
  destruct (api (RequestReviewers repo_name pr_number)) as [r2|t];
    [destruct (status_code r2 =? 201)|];
    cbn [requests commands stdout output]; tidy;
    do 2 eexists; split; reflexivity.
Qed.

(** X7.  The PR opener never raises, whatever the API does.  Without a
    branch name it issues nothing and returns [None].  With one it issues
    the creation request and, only after a creation answered 201 whose
    body holds a number and a URL, one reviewer request for that number;
    it issues nothing else, runs no local call and leaves the output file
    alone. *)
Theorem create_pull_request_always_returns repo_name branch w :
  exists v issued out,
    create_pull_request repo_name branch w
    = (Return v, mkWorld (requests w ++ issued) (commands w) out (output w))
    /\ match branch with
       | None => issued = []
       | Some head =>
           if (head =? "")%string then issued = []
           else issued = [CreatePull repo_name head]
                \/ exists r pr_number,
                     api (CreatePull repo_name head) = Answered r
                     /\ status_code r = 201
                     /\ issued = [CreatePull repo_name head;
                                  RequestReviewers repo_name pr_number]
       end.
Proof.
  destruct branch as [head|].
  - destruct (head =? "")%string eqn:Hhead.
    + apply String.eqb_eq in Hhead. subst head.
      exists VNone, [], (stdout w). rewrite app_nil_r. destruct w.
      split; reflexivity.
    + apply String.eqb_neq in Hhead.
      destruct (create_pull_request_cases repo_name head w Hhead)
        as (v & out & Hrun & _).
      do 3 eexists. split; [exact Hrun|].
      destruct (api (CreatePull repo_name head)) as [r|t]; [|left; reflexivity].
      destruct (status_code r =? 201) eqn:Hs; [|left; reflexivity].
      destruct (number_and_url r) as [[pr_number pr_link]|e];
        [|left; reflexivity].
      right. exists r, pr_number. apply Z.eqb_eq in Hs. auto.
  - exists VNone, [], (stdout w). rewrite app_nil_r. destruct w.
    split; reflexivity.
Qed.

(** X8.  A creation answered 201 whose body is not JSON, or is JSON without
    the key [number] or without the key [html_url], is treated as a
    failure: the exception is caught and printed, the PR opener returns
    [None] and issues no reviewer request. *)
Theorem create_pull_request_unreadable_body repo_name head w r e :
  head <> "" ->
  api (CreatePull repo_name head) = Answered r ->
  status_code r = 201 ->
  number_and_url r = Err e ->
  create_pull_request repo_name (Some head) w
  = (Return VNone,
     mkWorld (requests w ++ [CreatePull repo_name head]) (commands w)
             (stdout w ++ [PullRequestError repo_name e]) (output w)).
Proof.
  intros Hhead Hpost Hs Hbody.
  apply String.eqb_neq in Hhead. apply Z.eqb_eq in Hs.
  exec. rewrite Hhead, Hpost. cbv beta iota. rewrite Hs.
  destruct (json_of r) as [pr_data|e1]; cbn [and_then] in Hbody;
    [|injection Hbody as ->; reflexivity].
  destruct (getitem pr_data "number") as [pr_number|e2]; cbn [and_then] in Hbody;
    [|injection Hbody as ->; reflexivity].
  destruct (getitem pr_data "html_url") as [pr_link|e3]; cbn [and_then] in Hbody;
    [discriminate|injection Hbody as ->; reflexivity].
Qed.

(** X9.  Once the pull request is created, the fate of the reviewer
    request does not change what the PR opener returns: whether that
    request is refused (any status but 201) or raises without an answer,
    the failure is printed and the URL of the pull request is returned. *)
Theorem create_pull_request_survives_reviewers
        repo_name head w r pr_data pr_number pr_link :
  head <> "" ->
  api (CreatePull repo_name head) = Answered r ->
  status_code r = 201 ->
  json r = Some pr_data ->
  getitem pr_data "number" = Ok pr_number ->
  getitem pr_data "html_url" = Ok pr_link ->
  (forall r2,
      api (RequestReviewers repo_name pr_number) = Answered r2 ->
      status_code r2 <> 201 ->
      create_pull_request repo_name (Some head) w
      = (Return pr_link,
         mkWorld (requests w ++ [CreatePull repo_name head;
                                 RequestReviewers repo_name pr_number])
                 (commands w)
                 (stdout w ++ [PullRequestCreated repo_name pr_link;
                               ReviewersFailed pr_number repo_name
                                 (status_code r2) (text r2)])
                 (output w)))
  /\ (forall t,
        api (RequestReviewers repo_name pr_number) = Failed t ->
        create_pull_request repo_name (Some head) w
        = (Return pr_link,
           mkWorld (requests w ++ [CreatePull repo_name head;
                                   RequestReviewers repo_name pr_number])
                   (commands w)
                   (stdout w ++ [PullRequestCreated repo_name pr_link;
                                 ReviewersError pr_number repo_name
                                   (RequestFailed t)])
                   (output w))).
Proof.
  intros Hhead Hpost Hs Hjson Hnumber Hlink.
  rewrite (create_pull_request_created api repo_name head w r pr_data pr_number
             pr_link Hhead Hpost Hs Hjson Hnumber Hlink).
  split.
  - intros r2 Hreviewers Hs2. rewrite Hreviewers.
    apply Z.eqb_neq in Hs2. rewrite Hs2. reflexivity.
  - intros t Hreviewers. rewrite Hreviewers. reflexivity.
Qed.

End Opener.

Section BranchPublisher.

Import ReposFromTe.

Variable path_exists : string -> bool.
Variable run : command -> option exn.

Local Notation create_branch_and_push :=
  (create_branch_and_push path_exists run).

(** The calls of the branch publisher after the clone, in source order. *)
Local Notation publishing repo_name workflow_content :=
  (let local_path := ("./" ++ repo_name)%string in
   let workflows_path := path_join local_path folder_path in
   [OpenRepo local_path;
    CheckoutNew local_path branch_name;
    Makedirs workflows_path;
    WriteText (path_join workflows_path file_name) workflow_content;
    GitAdd local_path folder_path;
    GitCommit local_path commit_message;
    Remote local_path "origin";
    Push local_path branch_name]).

Local Notation cloning repo_url repo_name :=
  (if path_exists ("./" ++ repo_name)%string
   then []
   else [CloneFrom repo_url ("./" ++ repo_name)%string]).

Ltac call_step :=
  match goal with
  | |- context [run ?c] =>
      let e := fresh "e" in
      let Hc := fresh "Hc" in
      destruct (run c) as [e|] eqn:Hc; cbv beta iota;
      cbn [requests commands stdout output]
  end.



(** X10.  When every local call goes through, the branch publisher returns
    the branch name, having made its calls in this order: the clone, unless
    the directory exists already, then open, checkout of the new branch,
    creation of the workflow directory, writing of the workflow file, add,
    commit, remote and push. *)
Theorem create_branch_and_push_publishes repo_url repo_name workflow_content w :
  (forall c, run c = None) ->
  fst (create_branch_and_push repo_url repo_name workflow_content w)
  = Return (Some branch_name)
  /\ commands (snd (create_branch_and_push repo_url repo_name workflow_content w))
     = commands w ++ cloning repo_url repo_name
                  ++ publishing repo_name workflow_content.
Proof.
  intros Hrun.
  cbv [ReposFromTe.create_branch_and_push
       bind ret raise print call try_except is_Exception]; cbv beta iota.
  destruct (path_exists ("./" ++ repo_name)); cbv beta iota;
    cbn [requests commands stdout output].
  all: repeat (call_step;
               [ match goal with
                 | H : run _ = Some _ |- _ => rewrite Hrun in H; discriminate H
                 end
               | ]).
  all: cbn [fst snd commands]; tidy; split; reflexivity.
Qed.


End BranchPublisher.

Section WholeRun.

Import ReposFromTe.

Variable list_repos : nat -> reply (list repo).
Variable api : request -> reply value.
Variable path_exists : string -> bool.
Variable run : command -> option exn.
Variable read_text : string -> result string.

Local Notation fetch_repos := (fetch_repos list_repos).
Local Notation pages_answered := (pages_answered list_repos).
Local Notation page_exception := (page_exception list_repos).
Local Notation create_branch_and_push :=
  (create_branch_and_push path_exists run).
Local Notation create_pull_request := (create_pull_request api).
Local Notation process := (process api path_exists run).
Local Notation main := (main list_repos api path_exists run read_text).

(** X12.  Without the workflow file [main] prints one line and exits with
    status 1; with a workflow file that cannot be read it ends with the
    exception of the read.  Either way nothing else has happened: no
    request, no local call, the output file as it was. *)
Theorem main_needs_the_workflow_file fuel w :
  (path_exists file_name = false ->
     main fuel w
     = (Exit 1,
        mkWorld (requests w) (commands w)
                (stdout w ++ [MissingWorkflowFile file_name]) (output w)))
  /\ (forall e,
        path_exists file_name = true ->
        read_text file_name = Err e ->
        main fuel w = (Raise e, w)).
Proof.
  split.
  - intros Hmissing. unfold ReposFromTe.main, read_workflow_file.
    rewrite Hmissing. reflexivity.
  - intros e Hexists Hread. unfold ReposFromTe.main, read_workflow_file.
    rewrite Hexists, Hread. reflexivity.
Qed.

Lemma pages_answered_next first data pages :
  pages_answered first (data :: pages) -> pages_answered (S first) pages.
Proof.
  intros Hpages i d Hi. specialize (Hpages (S i) d Hi).
  rewrite Nat.add_succ_r in Hpages. exact Hpages.
Qed.

(** The listing loop ends with the exception of the first page that
    raises. *)
Lemma fetch_repos_raises e pages : forall fuel first repos w,
  pages_answered first pages ->
  page_exception (first + length pages) = Some e ->
  (length pages < fuel)%nat ->
  exists out,
    fetch_repos fuel first repos w
    = (Raise e,
       mkWorld (requests w ++ map ListRepos (seq first (S (length pages))))
               (commands w) out (output w)).
Proof.
  induction pages as [|data pages IH]; intros fuel first repos w Hpages He Hfuel;
    (destruct fuel as [|fuel]; [inversion Hfuel|]).
  - cbn [length] in He. rewrite Nat.add_0_r in He.
    unfold ReposFromTe.page_exception in He.
    cbn [ReposFromTe.fetch_repos].
    cbv [bind print get_page answer ret raise lift]. cbv beta iota.
    destruct (list_repos first) as [r|t].
    + destruct (status_code r =? 200); [|discriminate]. cbn [negb].
      unfold json_of. destruct (json r); [discriminate|].
      injection He as <-. eexists. reflexivity.
    + injection He as <-. eexists. reflexivity.
  - destruct (Hpages 0%nat data eq_refl) as [Hdata [r [Hget [Hs Hjson]]]].
    rewrite Nat.add_0_r in Hget.
    apply pages_answered_next in Hpages.
    cbn [length] in He, Hfuel. rewrite Nat.add_succ_r in He.
    apply PeanoNat.lt_S_n in Hfuel.
    cbn [ReposFromTe.fetch_repos].
    cbv [bind print get_page answer ret raise lift]. cbv beta iota.
    rewrite Hget. cbv beta iota. apply Z.eqb_eq in Hs. rewrite Hs. cbn [negb].
    unfold json_of. rewrite Hjson.
    destruct data as [|d data]; [contradiction|].
    rewrite Nat.add_1_r.
    destruct (IH fuel (S first) (repos ++ d :: data)
                 (mkWorld (requests w ++ [ListRepos first]) (commands w)
                          (stdout w ++ [FetchingPage first]) (output w))
                 Hpages He Hfuel) as [out Hrec].
    exists out. cbn [requests commands stdout output length] in *.
    rewrite Hrec. rewrite <- !app_assoc. reflexivity.
Qed.

(** X13.  A request for a page of the listing that raises (no answer, or
    a 200 answer whose body is not JSON) ends [main] with that exception,
    whatever the pages before it held: no repository is cloned, no pull
    request is opened and the output file is not written. *)
Theorem main_aborts_on_listing_exception pages workflow_content e fuel w :
  path_exists file_name = true ->
  read_text file_name = Ok workflow_content ->
  pages_answered 1 pages ->
  page_exception (1 + length pages) = Some e ->
  (length pages < fuel)%nat ->
  exists out,
    main fuel w
    = (Raise e,
       mkWorld (requests w ++ map ListRepos (seq 1 (S (length pages))))
               (commands w) out (output w)).
Proof.
  intros Hexists Hread Hpages He Hfuel.
  unfold ReposFromTe.main, read_workflow_file. rewrite Hexists, Hread.
  cbn [negb lift]. unfold bind at 1. unfold ret at 1.
  destruct (fetch_repos_raises e pages fuel 1%nat [] w Hpages He Hfuel)
    as [out Hfetch].
  unfold bind at 1. rewrite Hfetch. exists out. reflexivity.
Qed.

(** A request of step 4 for one of the repositories [repos]. *)
Local Notation aimed_at repos :=
  (fun q =>
     match q with
     | ListRepos _ => False
     | CreatePull repo_name head =>
         head = branch_name /\ In repo_name (map name repos)
     | RequestReviewers repo_name _ => In repo_name (map name repos)
     end).

(** One turn of the loop of step 4, whatever the outside world does. *)
Lemma attempt_returns r workflow_content pr_urls w :
  exists added issued calls out,
    try_except
      (branch <- create_branch_and_push (clone_url r) (name r) workflow_content ;;
       pr_url <- create_pull_request (name r) branch ;;
       if truthy pr_url then ret (pr_urls ++ [pr_url]) else ret pr_urls)
      is_Exception
      (fun e => print (Skipping (name r) e) ;; ret pr_urls) w
    = (Return (pr_urls ++ added),
       mkWorld (requests w ++ issued) (commands w ++ calls) out (output w))
    /\ Forall (fun v => truthy v = true) added
    /\ (length added <= 1)%nat
    /\ Forall (aimed_at [r]) issued.
Proof.
  destruct (create_branch_and_push_returns path_exists run (clone_url r) (name r)
              workflow_content w)
    as (branch & calls & out & Hrun & Hbranch).
  unfold try_except, bind. rewrite Hrun.
  set (w1 := mkWorld (requests w) (commands w ++ calls) out (output w)).
  destruct Hbranch as [-> | [-> _]].
  - assert (Hhead : branch_name <> "") by discriminate.
    destruct (create_pull_request_cases api (name r) branch_name w1 Hhead)
      as (v & out' & Hopen & Hv).
    rewrite Hopen. clear Hopen.
    assert (Haimed :
      Forall (aimed_at [r])
        (CreatePull (name r) branch_name
         :: match api (CreatePull (name r) branch_name) with
            | Answered a =>
                if status_code a =? 201 then
                  match and_then (json_of a) (fun pr_data =>
                        and_then (getitem pr_data "number") (fun pr_number =>
                        and_then (getitem pr_data "html_url") (fun pr_link =>
                        Ok (pr_number, pr_link)))) with
                  | Ok (pr_number, _) => [RequestReviewers (name r) pr_number]
                  | Err _ => []
                  end
                else []
            | Failed _ => []
            end)).
    { constructor; [cbn; auto|].
      destruct (api (CreatePull (name r) branch_name)) as [a|t]; [|constructor].
      destruct (status_code a =? 201); [|constructor].
      destruct (and_then _ _) as [[pr_number pr_link]|e]; [|constructor].
      constructor; [cbn; auto | constructor]. }
    destruct (truthy v) eqn:Htruthy.
    + exists [v]. do 3 eexists. unfold ret, w1.
      cbn [requests commands stdout output].
      split; [reflexivity|]. split; [repeat constructor; assumption|].
      split; [cbn; lia | exact Haimed].
    + exists []. do 3 eexists. unfold ret, w1.
      cbn [requests commands stdout output]. rewrite app_nil_r.
      split; [reflexivity|]. split; [constructor|].
      split; [cbn; lia | exact Haimed].
  - cbn [ReposFromTe.create_pull_request ret truthy].
    exists [], [], calls, out. unfold ret, w1. rewrite !app_nil_r.
    split; [reflexivity|]. split; [constructor|].
    split; [cbn; lia | constructor].
Qed.

Lemma aimed_at_more q (repos repos' : list repo) :
  (forall n, In n (map name repos) -> In n (map name repos')) ->
  aimed_at repos q -> aimed_at repos' q.
Proof.
  intros Hincl. destruct q as [page|repo_name head|repo_name pr_number]; cbn.
  - tauto.
  - intros [Hhead Hin]. auto.
  - auto.
Qed.

(** The loop of step 4, whatever the outside world does. *)
Lemma process_returns workflow_content filtered_repos : forall pr_urls w,
  exists added issued calls out,
    process filtered_repos workflow_content pr_urls w
    = (Return (pr_urls ++ added),
       mkWorld (requests w ++ issued) (commands w ++ calls) out (output w))
    /\ Forall (fun v => truthy v = true) added
    /\ (length added <= length filtered_repos)%nat
    /\ Forall (aimed_at filtered_repos) issued.
Proof.
  induction filtered_repos as [|r rest IH]; intros pr_urls w.
  - exists [], [], [], (stdout w). cbn [ReposFromTe.process ret].
    rewrite !app_nil_r. destruct w.
    split; [reflexivity|]. split; [constructor|]. split; [cbn; lia|constructor].
  - cbn [ReposFromTe.process]. unfold bind at 1 2. unfold print at 1.
    destruct (attempt_returns r workflow_content pr_urls
                (mkWorld (requests w) (commands w)
                         (stdout w ++ [Processing (name r)]) (output w)))
      as (added & issued & calls & out & Hturn & Htruthy & Hlen & Haimed).
    cbn [requests commands stdout output] in Hturn. rewrite Hturn.
    destruct (IH (pr_urls ++ added)
                 (mkWorld (requests w ++ issued) (commands w ++ calls) out
                          (output w)))
      as (added' & issued' & calls' & out' & Hrest & Htruthy' & Hlen' & Haimed').
    rewrite Hrest.
    exists (added ++ added'), (issued ++ issued'), (calls ++ calls'), out'.
    cbn [requests commands stdout output]. rewrite !app_assoc.
    split; [reflexivity|].
    split; [apply Forall_app; split; assumption|].
    split; [rewrite length_app; cbn [length]; lia|].
    apply Forall_app. split.
    + eapply Forall_impl; [|exact Haimed]. intros q.
      apply aimed_at_more. cbn [map In]. tauto.
    + eapply Forall_impl; [|exact Haimed']. intros q.
      apply aimed_at_more. cbn [map In]. tauto.
Qed.


(** The listing loop issues listing requests only, whatever it ends with. *)
Lemma fetch_repos_issues : forall fuel first repos w,
  exists pages_requested,
    requests (snd (fetch_repos fuel first repos w))
    = requests w ++ map ListRepos pages_requested.
Proof.
  induction fuel as [|fuel IH]; intros first repos w.
  - exists []. cbn. rewrite app_nil_r. reflexivity.
  - cbn [ReposFromTe.fetch_repos].
    cbv [bind print get_page answer ret raise lift]. cbv beta iota.
    destruct (list_repos first) as [r|t];
      [|exists [first]; reflexivity].
    cbv beta iota.
    destruct (status_code r =? 200); cbn [negb];
      [|exists [first]; reflexivity].
    unfold json_of. destruct (json r) as [data|];
      [|exists [first]; reflexivity].
    destruct data as [|d data]; [exists [first]; reflexivity|].
    destruct (IH (first + 1)%nat (repos ++ d :: data)
                 (mkWorld (requests w ++ [ListRepos first]) (commands w)
                          (stdout w ++ [FetchingPage first]) (output w)))
      as [pages_requested Hrec].
    exists (first :: pages_requested).
    cbn [requests commands stdout output] in *.
    rewrite Hrec, <- app_assoc. reflexivity.
Qed.

Lemma write_lines_issues pr_urls : forall w,
  requests (snd (write_lines pr_urls w)) = requests w.
Proof.
  induction pr_urls as [|url rest IH]; intros w; [reflexivity|].
  cbn [write_lines]. unfold bind, write_line.
  destruct url; try reflexivity.
  cbv beta iota. rewrite IH. reflexivity.
Qed.

(** X15.  Whatever the outside world does and however [main] ends, every
    request it has issued is within the selection of step 3: requests for
    pages of the listing apart, each concerns a repository whose name
    starts with "te-" and is not "te-payment-test", and a pull request is
    only ever asked for the branch of the script. *)
Theorem main_requests_in_scope fuel w :
  exists issued,
    requests (snd (main fuel w)) = requests w ++ issued
    /\ Forall in_scope issued.
Proof.
  unfold ReposFromTe.main, read_workflow_file.
  destruct (path_exists file_name); cbn [negb];
    [|exists []; rewrite app_nil_r; split; [reflexivity|constructor]].
  destruct (read_text file_name) as [workflow_content|e]; cbn [lift];
    [|exists []; rewrite app_nil_r; split; [reflexivity|constructor]].
  unfold bind at 1. unfold ret at 1.
  destruct (fetch_repos_issues fuel 1%nat [] w) as [pages_requested Hfetch].
  assert (Hpages : Forall in_scope (map ListRepos pages_requested)).
  { apply Forall_forall. intros q Hq. apply in_map_iff in Hq.
    destruct Hq as [page [<- _]]. exact I. }
  unfold bind at 1.
  destruct (fetch_repos fuel 1 [] w) as [o w1]. cbn [snd] in Hfetch.
  destruct o as [repos|e|c|];
    try (eexists; split; [exact Hfetch | exact Hpages]).
  destruct (process_returns workflow_content (filter_repos repos) [] w1)
    as (added & issued & calls & out & Hprocess & _ & _ & Haimed).
  unfold bind at 1. rewrite Hprocess. cbn [app].
  exists (map ListRepos pages_requested ++ issued). split.
  - rewrite app_assoc, <- Hfetch.
    unfold bind, write_output, call, print.
    destruct (run (OpenForWriting output_file)); [reflexivity|].
    cbv [bind]. cbv beta iota. cbn [requests commands stdout output].
    match goal with
    | |- context [write_lines ?l ?w0] =>
        pose proof (write_lines_issues l w0) as Hwrite;
        destruct (write_lines l w0) as [o' w2]
    end.
    cbn [snd requests] in Hwrite.
    destruct o'; cbn [snd requests]; exact Hwrite.
  - apply Forall_app. split; [exact Hpages|].
    eapply Forall_impl; [|exact Haimed].
    intros q. destruct q as [page|repo_name head|repo_name pr_number]; cbn.
    + tauto.
    + intros [Hhead Hin]. apply in_map_iff in Hin.
      destruct Hin as [r [<- Hr]]. apply filter_In in Hr.
      destruct Hr as [_ Hsel]. apply selected_iff in Hsel. tauto.
    + intros Hin. apply in_map_iff in Hin.
      destruct Hin as [r [<- Hr]]. apply filter_In in Hr.
      destruct Hr as [_ Hsel]. apply selected_iff in Hsel. tauto.
Qed.

End WholeRun.

Section FurtherPullRequestRuns.

Import ReposFromTe.

Local Notation alpha_url := "https://github.com/weareplanet/te-alpha/pull/7".
Local Notation gamma_url := "https://github.com/weareplanet/te-gamma/pull/3".

Lemma create_pull_request_unreadable_body_witness :
  create_pull_request Scenario.numberless_api "te-alpha" (Some branch_name)
                      Scenario.fresh
  = (Return VNone,
     mkWorld [CreatePull "te-alpha" branch_name] []
             [PullRequestError "te-alpha" (KeyError "number")] None).
Proof.
  apply (create_pull_request_unreadable_body Scenario.numberless_api
           "te-alpha" branch_name Scenario.fresh
           (mkResponse 201 "{...}" (Some (VDict [("html_url", VStr alpha_url)])))
           (KeyError "number")).
  - discriminate.
  - reflexivity.
  - reflexivity.
  - reflexivity.
Defined.

Lemma create_pull_request_survives_reviewers_witness :
  fst (create_pull_request Scenario.no_reviewers_api "te-alpha"
         (Some branch_name) Scenario.fresh)
  = Return (VStr alpha_url)
  /\ fst (create_pull_request Scenario.no_reviewers_api "te-gamma"
            (Some branch_name) Scenario.fresh)
     = Return (VStr gamma_url).
Proof.
  split.
  - rewrite (proj1 (create_pull_request_survives_reviewers
                      Scenario.no_reviewers_api "te-alpha" branch_name
                      Scenario.fresh
                      (mkResponse 201 "{...}" (Some (Scenario.pull_body 7 alpha_url)))
                      (Scenario.pull_body 7 alpha_url) (VInt 7) (VStr alpha_url)
                      ltac:(discriminate) eq_refl eq_refl eq_refl eq_refl eq_refl)
                   (mkResponse 422 "Reviews may only be requested from collaborators"
                               None)
                   eq_refl ltac:(discriminate)).
    reflexivity.
  - rewrite (proj2 (create_pull_request_survives_reviewers
                      Scenario.no_reviewers_api "te-gamma" branch_name
                      Scenario.fresh
                      (mkResponse 201 "{...}" (Some (Scenario.pull_body 3 gamma_url)))
                      (Scenario.pull_body 3 gamma_url) (VInt 3) (VStr gamma_url)
                      ltac:(discriminate) eq_refl eq_refl eq_refl eq_refl eq_refl)
                   Timeout eq_refl).
    reflexivity.
Defined.

Lemma create_branch_and_push_publishes_witness :
  fst (create_branch_and_push Scenario.only_workflow Scenario.all_goes_well
         (clone_url Scenario.te_alpha) "te-alpha" "name: cherrypick"
         Scenario.fresh)
  = Return (Some branch_name)
  /\ commands (snd (create_branch_and_push Scenario.only_workflow
                      Scenario.all_goes_well (clone_url Scenario.te_alpha)
                      "te-alpha" "name: cherrypick" Scenario.fresh))
     = [CloneFrom "https://github.com/weareplanet/te-alpha.git" "./te-alpha";
        OpenRepo "./te-alpha";
        CheckoutNew "./te-alpha" "add-cherrypick-workflow";
        Makedirs "./te-alpha/.github/workflows";
        WriteText "./te-alpha/.github/workflows/cherrypick_workflow.yml"
                  "name: cherrypick";
        GitAdd "./te-alpha" ".github/workflows";
        GitCommit "./te-alpha" "Add cherrypick workflow";
        Remote "./te-alpha" "origin";
        Push "./te-alpha" "add-cherrypick-workflow"].
Proof.
  apply (create_branch_and_push_publishes Scenario.only_workflow
           Scenario.all_goes_well (clone_url Scenario.te_alpha) "te-alpha"
           "name: cherrypick" Scenario.fresh).
  reflexivity.
Defined.


Lemma main_needs_the_workflow_file_witness :
  main Scenario.listing Scenario.pulls_api Scenario.nothing_exists
       Scenario.all_goes_well Scenario.workflow_text 5 Scenario.stale
  = (Exit 1,
     mkWorld [] [] [MissingWorkflowFile file_name]
             (Some "https://github.com/weareplanet/old/pull/1")).
Proof.
  apply (proj1 (main_needs_the_workflow_file Scenario.listing Scenario.pulls_api
                  Scenario.nothing_exists Scenario.all_goes_well
                  Scenario.workflow_text 5 Scenario.stale)).
  reflexivity.
Defined.

Lemma broken_listing_answered :
  pages_answered Scenario.broken_listing 1 [Scenario.first_page].
Proof.
  intros [|i] data Hnth; cbn in Hnth; try (destruct i; discriminate).
  injection Hnth as <-. split; [discriminate|]. eexists.
  split; [reflexivity|]. split; reflexivity.
Qed.

Lemma main_aborts_on_listing_exception_witness :
  exists out,
    main Scenario.broken_listing Scenario.pulls_api Scenario.only_workflow
         Scenario.all_goes_well Scenario.workflow_text 5 Scenario.stale
    = (Raise (RequestFailed ConnectionError),
       mkWorld [ListRepos 1; ListRepos 2] [] out
               (Some "https://github.com/weareplanet/old/pull/1")).
Proof.
  apply (main_aborts_on_listing_exception Scenario.broken_listing
           Scenario.pulls_api Scenario.only_workflow Scenario.all_goes_well
           Scenario.workflow_text [Scenario.first_page] "name: cherrypick"
           (RequestFailed ConnectionError) 5 Scenario.stale
           eq_refl eq_refl broken_listing_answered eq_refl).
  cbn. lia.
Defined.

End FurtherPullRequestRuns.

Section Reviewers.

Import ReposFromTe.

Variable api : request -> reply value.

(** X16.  [add_reviewers] issues its one request and returns, whatever
    comes back: an answer 201 is reported as success, an answer with any
    other status as a failure with its status and body, and a request that
    raises without an answer is caught and reported with its exception. *)
Theorem add_reviewers_always_returns repo_name pr_number w :
  add_reviewers api repo_name pr_number w
  = (Return tt,
     mkWorld (requests w ++ [RequestReviewers repo_name pr_number])
             (commands w)
             (stdout w
              ++ [match api (RequestReviewers repo_name pr_number) with
                  | Answered r =>
                      if status_code r =? 201
                      then ReviewersAdded pr_number repo_name
                      else ReviewersFailed pr_number repo_name
                                           (status_code r) (text r)
                  | Failed t =>
                      ReviewersError pr_number repo_name (RequestFailed t)
                  end])
             (output w)).
Proof. exact (add_reviewers_returns api repo_name pr_number w). Qed.

End Reviewers.
